(** * User Similarity Search: a model of [src/app/app.py]

    The service stores user profiles in a vector database (Qdrant), after
    turning them into text and asking an embedding endpoint (Ollama) for a
    vector.  The Python handlers are embedded as functions of a small
    state-and-exception monad; the two external services, the UUID generator
    and the process environment are oracles of an environment record. *)

From Stdlib Require Import ZArith QArith.
From stdpp Require Import base option list strings pretty sorting gmap fin_maps.

Local Open Scope string_scope.
Local Open Scope Z_scope.

(** ** Python values

    JSON documents and pydantic dictionaries.  A dictionary keeps its
    insertion order, as Python's does.  A float travels through the service
    untouched (no arithmetic is done on it); every finite binary64 value is
    a rational, which is how it is carried here. *)

#[warnings="-register-all"]
Inductive value : Type :=
  | VNone
  | VBool (b : bool)
  | VInt (z : Z)
  | VFloat (q : Q)
  | VStr (s : string)
  | VList (l : list value)
  | VDict (d : list (string * value)).

(** [type(v).__name__] *)
Definition type_name (v : value) : string :=
  match v with
  | VNone => "NoneType"
  | VBool _ => "bool"
  | VInt _ => "int"
  | VFloat _ => "float"
  | VStr _ => "str"
  | VList _ => "list"
  | VDict _ => "dict"
  end.

(** [d.get(k)] on the entries of a dictionary: [None] when the key is missing. *)
Fixpoint dict_get (k : string) (d : list (string * value)) : option value :=
  match d with
  | [] => None
  | (k', v) :: d' => if String.eqb k k' then Some v else dict_get k d'
  end.

(** [str(n)] for a Python [int]: decimal digits, a leading minus sign when
    negative. *)
Definition str_int (z : Z) : string := pretty z.

(** [sep.join(l)] *)
Fixpoint str_join (sep : string) (l : list string) : string :=
  match l with
  | [] => ""
  | [x] => x
  | x :: l' => x +:+ sep +:+ str_join sep l'
  end.

(** ** The pydantic models *)

(** [class User(BaseModel)].  [age: int = None]: an integer field whose
    default, [None], is what a user has when the field is left out. *)
Record User : Type := mkUser {
  name : string;
  bio : string;
  interests : list string;
  location : string;
  age : option Z
}.

(** [class UserResponse(BaseModel)] *)
Record UserResponse : Type := mkUserResponse {
  id : string;
  user : User;
  similarity_score : option Q
}.

(** Truth value of [user.age]: [None] and [0] are falsy. *)
Definition age_truthy (a : option Z) : bool :=
  match a with
  | None => false
  | Some z => negb (z =? 0)
  end.

(** [user.age if user.age else 'Unknown'], formatted *)
Definition age_text (a : option Z) : string :=
  if age_truthy a then
    match a with Some z => str_int z | None => "None" end
  else "Unknown".

(** [user_to_text], lines 91-94 *)
Definition user_to_text (user : User) : string :=
  let interests := str_join ", " user.(interests) in
  "Name: " +:+ user.(name) +:+ ". Bio: " +:+ user.(bio)
  +:+ ". Interests: " +:+ interests
  +:+ ". Location: " +:+ user.(location)
  +:+ ". Age: " +:+ age_text user.(age).

(** The serialisation as the specification words it: the age when the field
    is present, [Unknown] when it is absent. *)
Definition user_to_text_spec (user : User) : string :=
  "Name: " +:+ user.(name) +:+ ". Bio: " +:+ user.(bio)
  +:+ ". Interests: " +:+ String.concat ", " user.(interests)
  +:+ ". Location: " +:+ user.(location)
  +:+ ". Age: " +:+ match user.(age) with
                    | Some z => str_int z
                    | None => "Unknown"
                    end.

(** [user.dict()] *)
Definition User_dict (u : User) : list (string * value) :=
  [ ("name", VStr u.(name));
    ("bio", VStr u.(bio));
    ("interests", VList (VStr <$> u.(interests)));
    ("location", VStr u.(location));
    ("age", match u.(age) with Some z => VInt z | None => VNone end) ].

(** ** Exceptions and results *)

Inductive exn : Type :=
  | HTTPException (status_code : Z) (detail : string)
  | Exception (msg : string).

Inductive result (A : Type) : Type :=
  | Ok (a : A)
  | Raise (e : exn).
Arguments Ok {A} a.
Arguments Raise {A} e.

(** [str(e)] *)
Definition str_exn (e : exn) : string :=
  match e with
  | HTTPException _ detail => detail
  | Exception msg => msg
  end.

(** The status code FastAPI answers a request with: the handler's value is
    a 200, an [HTTPException] carries its own code, anything else that
    escapes the handler is an internal server error. *)
Definition http_status {A} (r : result A) : Z :=
  match r with
  | Ok _ => 200
  | Raise (HTTPException status_code _) => status_code
  | Raise (Exception _) => 500
  end.

(** ** The outside world *)

(** A request of the embedding client: [client.post(url, json={"model":
    model, "prompt": text})] on an [httpx.AsyncClient(timeout=...)]. *)
Record Request : Type := mkRequest {
  url : string;
  timeout : Q;
  json_model : string;
  json_prompt : string
}.

(** The body of a response: [response.json()] raises on a body that is not
    JSON, and gives the document otherwise. *)
Inductive Body : Type :=
  | NotJson (msg : string)
  | Json (v : value).

Record Response : Type := mkResponse {
  status_code : Z;
  body : Body
}.

(** What a request comes back with: an exception of the transport (refused
    connection, timeout, ...) or a response. *)
Inductive Reply : Type :=
  | TransportError (msg : string)
  | Replied (response : Response).

Inductive Distance : Type := COSINE | EUCLID | DOT | MANHATTAN.

(** [models.VectorParams] *)
Record VectorParams : Type := mkVectorParams {
  vp_size : Z;
  vp_distance : Distance
}.

(** A point as the store keeps it, under its id. *)
Record StoredPoint : Type := mkStoredPoint {
  vector : value;
  payload : list (string * value)
}.

(** [models.PointStruct] *)
Record PointStruct : Type := mkPointStruct {
  ps_id : string;
  ps_vector : value;
  ps_payload : list (string * value)
}.

(** [models.Record], an entry of the answers of [retrieve] and [scroll] *)
Record PointRecord : Type := mkPointRecord {
  rec_id : string;
  rec_payload : list (string * value)
}.

(** [models.ScoredPoint], an entry of the answer of [search] *)
Record ScoredPoint : Type := mkScoredPoint {
  hit_id : string;
  hit_payload : list (string * value);
  score : Q
}.

Record Collection : Type := mkCollection {
  config : VectorParams;
  points : gmap string StoredPoint
}.

(** What the service does not decide: the process environment, the replies
    of the embedding endpoint (to the n-th request of the run), the values
    [uuid.uuid4()] draws (at its n-th call), whether the n-th call to the
    vector store fails (connection refused, timeout, ...) and with which
    message, the similarity the store computes between two vectors, and
    what pydantic makes of a value given for an integer field that is
    neither an integer nor null (a boolean, a float, a string, ...): the
    integer it converts it to, or nothing when it refuses it. *)
Record Env : Type := mkEnv {
  environ : string → option string;
  ollama : nat → Request → Reply;
  uuid4 : nat → string;
  qdrant_fault : nat → option string;
  similarity : value → value → Q;
  lax_int : value → option Z
}.

(** ** Validation of a payload: [User] built from the keywords of a payload

    As pydantic 2 validates the model.  The three text fields want a string
    and [interests] a list of strings.  [age] is an integer field: an
    integer is taken as it is, an explicit null is refused (the annotation
    is [int], not an optional), other values go through the conversion of
    the library; the default [None] is used, without validation, when the
    key is missing.  Extra keys are ignored.  Anything refused is a
    validation error. *)

Definition validate_str (v : option value) : option string :=
  match v with
  | Some (VStr s) => Some s
  | _ => None
  end.

Definition validate_str_list (v : option value) : option (list string) :=
  match v with
  | Some (VList l) => mapM (λ x, validate_str (Some x)) l
  | _ => None
  end.

Definition validate_age (E : Env) (v : option value) : option (option Z) :=
  match v with
  | None => Some None
  | Some VNone => None
  | Some (VInt z) => Some (Some z)
  | Some v' => Some <$> lax_int E v'
  end.

Definition User_of_dict (E : Env) (payload : list (string * value))
  : result User :=
  match validate_str (dict_get "name" payload),
        validate_str (dict_get "bio" payload),
        validate_str_list (dict_get "interests" payload),
        validate_str (dict_get "location" payload),
        validate_age E (dict_get "age" payload) with
  | Some n, Some b, Some i, Some l, Some a => Ok (mkUser n b i l a)
  | _, _, _, _, _ => Raise (Exception "validation error for User")
  end.

(** What changes during a run: the collections of the vector store, the
    number of calls made to it, the requests sent to the embedding endpoint
    (oldest first), the number of UUIDs drawn, and the lines printed. *)
Record State : Type := mkState {
  collections : gmap string Collection;
  qdrant_calls : nat;
  requests : list Request;
  uuid_calls : nat;
  stdout : list string
}.

(** ** The monad of the handlers: state and exceptions *)

Definition M (A : Type) : Type := State → result A * State.

Definition ret {A} (a : A) : M A := λ s, (Ok a, s).

Definition raise {A} (e : exn) : M A := λ s, (Raise e, s).

Definition bind {A B} (m : M A) (k : A → M B) : M B :=
  λ s, match m s with
       | (Ok a, s') => k a s'
       | (Raise e, s') => (Raise e, s')
       end.

(** [try: m  except Exception as e: h e] *)
Definition try_except {A} (m : M A) (h : exn → M A) : M A :=
  λ s, match m s with
       | (Ok a, s') => (Ok a, s')
       | (Raise e, s') => h e s'
       end.

Definition lift {A} (r : result A) : M A := λ s, (r, s).

Declare Scope py_scope.
Delimit Scope py_scope with py.
Notation "x <- m ;; k" := (bind m (λ x, k))
  (at level 100, m at next level, right associativity) : py_scope.
Notation "m ;; k" := (bind m (λ _, k))
  (at level 100, right associativity) : py_scope.
Local Open Scope py_scope.

(** [for x in l: ... yield f x], as a list comprehension evaluates it *)
Fixpoint for_each {A B} (f : A → M B) (l : list A) : M (list B) :=
  match l with
  | [] => ret []
  | x :: l' => y <- f x ;; ys <- for_each f l' ;; ret (y :: ys)
  end.

(** State updates, field by field. *)
Definition set_collections (c : gmap string Collection) (s : State) : State :=
  mkState c s.(qdrant_calls) s.(requests) s.(uuid_calls) s.(stdout).
Definition set_qdrant_calls (n : nat) (s : State) : State :=
  mkState s.(collections) n s.(requests) s.(uuid_calls) s.(stdout).
Definition set_requests (r : list Request) (s : State) : State :=
  mkState s.(collections) s.(qdrant_calls) r s.(uuid_calls) s.(stdout).
Definition set_uuid_calls (n : nat) (s : State) : State :=
  mkState s.(collections) s.(qdrant_calls) s.(requests) n s.(stdout).
Definition set_stdout (l : list string) (s : State) : State :=
  mkState s.(collections) s.(qdrant_calls) s.(requests) s.(uuid_calls) l.

(** [COLLECTION_NAME], [VECTOR_SIZE], lines 18-19 *)
Definition COLLECTION_NAME : string := "users1".
Definition VECTOR_SIZE : Z := 768.

(** [v is None] *)
Definition is_None (v : value) : bool :=
  match v with VNone => true | _ => false end.

Definition is_number (v : value) : bool :=
  match v with VInt _ | VFloat _ => true | _ => false end.

(** A vector the store accepts in a collection of dimension [dim]: a list of
    [dim] numbers. *)
Definition is_vector (dim : Z) (v : value) : bool :=
  match v with
  | VList l => forallb is_number l && (Z.of_nat (length l) =? dim)
  | _ => false
  end.

Section Service.
Variable E : Env.

(** [print(line)] *)
Definition print (line : string) : M unit :=
  λ s, (Ok tt, set_stdout (s.(stdout) ++ [line]) s).

(** [os.environ.get(key, default)] *)
Definition os_environ_get (key dflt : string) : string :=
  default dflt (environ E key).

(** [str(uuid.uuid4())] *)
Definition uuid4_str : M string :=
  λ s, (Ok (uuid4 E s.(uuid_calls)), set_uuid_calls (S s.(uuid_calls)) s).

(** *** The embedding endpoint *)

(** [await client.post(...)]: the request goes out, and the transport
    raises or the response comes back. *)
Definition client_post (req : Request) : M Response :=
  λ s, let s' := set_requests (s.(requests) ++ [req]) s in
       match ollama E (length s.(requests)) req with
       | TransportError msg => (Raise (Exception msg), s')
       | Replied response => (Ok response, s')
       end.

(** [response.json()] *)
Definition response_json (response : Response) : M value :=
  match response.(body) with
  | NotJson msg => raise (Exception msg)
  | Json v => ret v
  end.

(** [v.get(key)]: only a dictionary has the method. *)
Definition value_get (v : value) (key : string) : M value :=
  match v with
  | VDict d => ret (default VNone (dict_get key d))
  | _ => raise (Exception ("'" +:+ type_name v +:+ "' object has no attribute 'get'"))
  end.

(** [v[key]] *)
Definition value_getitem (v : value) (key : string) : M value :=
  match v with
  | VDict d =>
      match dict_get key d with
      | Some x => ret x
      | None => raise (Exception ("'" +:+ key +:+ "'"))
      end
  | _ => raise (Exception ("'" +:+ type_name v +:+ "' object is not subscriptable"))
  end.

(** [models_to_try], line 59 *)
Definition models_to_try : list string := ["nomic-embed-text"].

(** One turn of the loop of [get_embedding], lines 62-83.  [Some v]: the
    function returns [v].  [None]: the loop goes on with the next model,
    after a [continue] or after the exception handler. *)
Definition try_model (ollama_host text model : string) : M (option value) :=
  try_except
    (response <- client_post
                   (mkRequest ("http://" +:+ ollama_host +:+ ":11434/api/embeddings")
                              30 model text) ;;
     if negb (response.(status_code) =? 200) then
       print ("Model " +:+ model +:+ " failed with status "
              +:+ str_int response.(status_code)) ;;
       ret None
     else
       result <- response_json response ;;
       embedding <- value_get result "embedding" ;;
       if is_None embedding then
         print ("Model " +:+ model +:+ " returned null embeddings") ;;
         ret None
       else
         embedding <- value_getitem result "embedding" ;;
         ret (Some embedding))
    (λ e, print ("Error with model " +:+ model +:+ ": " +:+ str_exn e) ;;
          ret None).

(** The loop over the candidate models, and the [raise] after it. *)
Fixpoint embedding_loop (ollama_host text : string) (models : list string)
  : M value :=
  match models with
  | [] => raise (HTTPException 500
                   "Failed to generate embedding with any available model")
  | model :: rest =>
      r <- try_model ollama_host text model ;;
      match r with
      | Some embedding => ret embedding
      | None => embedding_loop ollama_host text rest
      end
  end.

(** [get_embedding], lines 54-89 *)
Definition get_embedding (text : string) : M value :=
  let ollama_host := os_environ_get "OLLAMA_HOST" "localhost" in
  embedding_loop ollama_host text models_to_try.

(** *** The vector store *)

(** A call to the store: it fails when the store cannot be reached, and
    otherwise runs on the collections. *)
Definition qdrant_call {A}
    (op : gmap string Collection → result A * gmap string Collection) : M A :=
  λ s, let s' := set_qdrant_calls (S s.(qdrant_calls)) s in
       match qdrant_fault E s.(qdrant_calls) with
       | Some msg => (Raise (Exception msg), s')
       | None => let '(r, c) := op s.(collections) in (r, set_collections c s')
       end.

Definition not_found (collection_name : string) : exn :=
  Exception ("Collection `" +:+ collection_name +:+ "` doesn't exist!").

(** [qdrant.get_collections().collections], the names *)
Definition get_collections : M (list string) :=
  qdrant_call (λ cs, (Ok (fst <$> map_to_list cs), cs)).

(** [qdrant.create_collection(collection_name, vectors_config)] *)
Definition create_collection (collection_name : string)
    (vectors_config : VectorParams) : M unit :=
  qdrant_call (λ cs,
    match cs !! collection_name with
    | Some _ =>
        (Raise (Exception ("Collection `" +:+ collection_name
                           +:+ "` already exists!")), cs)
    | None => (Ok tt, <[collection_name := mkCollection vectors_config ∅]> cs)
    end).

(** [qdrant.upsert(collection_name, points)]: insert or replace, by id. *)
Definition upsert (collection_name : string) (pts : list PointStruct) : M unit :=
  qdrant_call (λ cs,
    match cs !! collection_name with
    | None => (Raise (not_found collection_name), cs)
    | Some c =>
        if forallb (λ p, is_vector c.(config).(vp_size) p.(ps_vector)) pts then
          (Ok tt,
           <[collection_name :=
               mkCollection c.(config)
                 (foldl (λ m p, <[p.(ps_id) :=
                                    mkStoredPoint p.(ps_vector) p.(ps_payload)]> m)
                        c.(points) pts)]> cs)
        else (Raise (Exception "Wrong input: Vector dimension error"), cs)
    end).

(** The points of a collection ranked against a query vector, best first. *)
Definition ranked (query_vector : value) (pts : gmap string StoredPoint)
  : list ScoredPoint :=
  merge_sort (λ a b, Is_true (Qle_bool b.(score) a.(score)))
    ((λ ip, mkScoredPoint ip.1 ip.2.(payload)
              (similarity E query_vector ip.2.(vector)))
       <$> map_to_list pts).

(** [qdrant.search(collection_name, query_vector, limit)] *)
Definition search (collection_name : string) (query_vector : value) (limit : Z)
  : M (list ScoredPoint) :=
  qdrant_call (λ cs,
    match cs !! collection_name with
    | None => (Raise (not_found collection_name), cs)
    | Some c =>
        if is_vector c.(config).(vp_size) query_vector then
          (Ok (take (Z.to_nat limit) (ranked query_vector c.(points))), cs)
        else (Raise (Exception "Wrong input: Vector dimension error"), cs)
    end).

(** [qdrant.retrieve(collection_name, ids)]: the points found, none for an
    id the collection does not hold. *)
Definition retrieve (collection_name : string) (ids : list string)
  : M (list PointRecord) :=
  qdrant_call (λ cs,
    match cs !! collection_name with
    | None => (Raise (not_found collection_name), cs)
    | Some c =>
        (Ok (omap (λ i, (λ p, mkPointRecord i p.(payload)) <$> c.(points) !! i) ids),
         cs)
    end).

(** [qdrant.scroll(collection_name, limit)]: a page of at most [limit]
    points, and the id the next page starts at, if there is one. *)
Definition scroll (collection_name : string) (limit : Z)
  : M (list PointRecord * option string) :=
  qdrant_call (λ cs,
    match cs !! collection_name with
    | None => (Raise (not_found collection_name), cs)
    | Some c =>
        let all := (λ ip, mkPointRecord ip.1 ip.2.(payload))
                     <$> map_to_list c.(points) in
        (Ok (take (Z.to_nat limit) all,
             rec_id <$> head (drop (Z.to_nat limit) all)), cs)
    end).

(** *** Collection setup at import time, lines 21-40 *)

Definition startup : M unit :=
  try_except
    (collections <- get_collections ;;
     let collection_exists :=
       existsb (λ n, bool_decide (n = COLLECTION_NAME)) collections in
     if negb collection_exists then
       create_collection COLLECTION_NAME (mkVectorParams VECTOR_SIZE COSINE) ;;
       print ("Created new collection: " +:+ COLLECTION_NAME)
     else
       print ("Collection " +:+ COLLECTION_NAME +:+ " already exists"))
    (λ e, print ("Error during collection setup: " +:+ str_exn e) ;;
          raise e).

(** *** The handlers *)

(** [POST /users/], lines 96-115 *)
Definition create_user (user : User) : M UserResponse :=
  let user_text := user_to_text user in
  embedding <- get_embedding user_text ;;
  user_id <- uuid4_str ;;
  upsert COLLECTION_NAME [mkPointStruct user_id embedding (User_dict user)] ;;
  ret (mkUserResponse user_id user None).

(** [POST /users/find-similar/], lines 117-137 *)
Definition find_similar_user (user : User) : M UserResponse :=
  let user_text := user_to_text user in
  embedding <- get_embedding user_text ;;
  search_results <- search COLLECTION_NAME embedding 1 ;;
  match search_results with
  | [] => raise (HTTPException 404 "No similar users found")
  | top_result :: _ =>
      u <- lift (User_of_dict E top_result.(hit_payload)) ;;
      ret (mkUserResponse top_result.(hit_id) u (Some top_result.(score)))
  end.

(** [GET /users/{user_id}], lines 139-153 *)
Definition get_user (user_id : string) : M UserResponse :=
  results <- retrieve COLLECTION_NAME [user_id] ;;
  match results with
  | [] => raise (HTTPException 404 "User not found")
  | r :: _ =>
      u <- lift (User_of_dict E r.(rec_payload)) ;;
      ret (mkUserResponse r.(rec_id) u None)
  end.

(** [GET /users/], lines 155-167 *)
Definition list_users : M (list UserResponse) :=
  page <- scroll COLLECTION_NAME 100 ;;
  let results := page.1 in
  for_each (λ point, u <- lift (User_of_dict E point.(rec_payload)) ;;
                     ret (mkUserResponse point.(rec_id) u None))
           results.
End Service.

(** Vocabulary of the statements below. *)

(** The request of [get_embedding] for one candidate model. *)
Definition embedding_request (ollama_host model text : string) : Request :=
  mkRequest ("http://" +:+ ollama_host +:+ ":11434/api/embeddings") 30 model text.

(** The embedding a reply can be used for: the response has status 200 and
    its JSON document is an object whose [embedding] is there and not null. *)
Definition usable_embedding (r : Reply) : option value :=
  match r with
  | TransportError _ => None
  | Replied response =>
      if response.(status_code) =? 200 then
        match response.(body) with
        | Json (VDict d) =>
            match dict_get "embedding" d with
            | Some VNone | None => None
            | Some v => Some v
            end
        | _ => None
        end
      else None
  end.

(** The replies to the candidates, were they all asked in turn after [n]
    earlier requests. *)
Definition candidate_replies (E : Env) (ollama_host text : string) (n : nat)
    (models : list string) : list (option value) :=
  imap (λ i model,
          usable_embedding (ollama E (n + i) (embedding_request ollama_host model text)))
       models.

(** The exception [get_embedding] ends with, lines 86-89. *)
Definition all_failed : exn :=
  HTTPException 500 "Failed to generate embedding with any available model".

(** The order [search] ranks its hits in, and the hit a stored point makes. *)
Definition better (a b : ScoredPoint) : Prop :=
  Is_true (Qle_bool b.(score) a.(score)).

Definition scored (E : Env) (query_vector : value) (ip : string * StoredPoint)
  : ScoredPoint :=
  mkScoredPoint ip.1 ip.2.(payload) (similarity E query_vector ip.2.(vector)).

(** A user, an environment and a state to run the service on: the embedding
    endpoint answers every request with the same vector of 768 numbers, a
    unit vector, whose cosine similarity with itself is 1; the store is
    reachable and starts without collections. *)
Definition ada : User :=
  mkUser "Ada" "Engineer" ["chess"; "math"] "London" (Some 36).

Definition demo_vector : value :=
  VList (VFloat 1 :: replicate 767 (VFloat 0)).

Definition demo_env : Env :=
  mkEnv (λ _, None)
        (λ _ _, Replied (mkResponse 200 (Json (VDict [("embedding", demo_vector)]))))
        (λ n, "00000000-0000-4000-8000-" +:+ pretty n)
        (λ _, None)
        (λ _ _, 1%Q)
        (λ _, None).

(** The same, with the embedding endpoint down. *)
Definition offline_env : Env :=
  mkEnv (λ _, None)
        (λ _ _, TransportError "All connection attempts failed")
        (λ n, "00000000-0000-4000-8000-" +:+ pretty n)
        (λ _, None)
        (λ _ _, 1%Q)
        (λ _, None).

Definition boot_state : State := mkState ∅ 0 [] 0 [].

(** The state after a successful start. *)
Definition started_state : State := (startup demo_env boot_state).2.


(** The same as [demo_env], with the vector store down. *)
Definition store_down_env : Env :=
  mkEnv (λ _, None)
        (λ _ _, Replied (mkResponse 200 (Json (VDict [("embedding", demo_vector)]))))
        (λ n, "00000000-0000-4000-8000-" +:+ pretty n)
        (λ _, Some "[Errno 111] Connection refused")
        (λ _ _, 1%Q)
        (λ _, None).

(** The state after a start and the creation of [ada]. *)
Definition ada_state : State := (create_user demo_env ada started_state).2.

(** Every payload of the collection of the service is a user's. *)
Definition users_only (E : Env) (s : State) : Prop :=
  ∀ c, s.(collections) !! COLLECTION_NAME = Some c →
       map_Forall (λ _ p, ∃ u, User_of_dict E p.(payload) = Ok u) c.(points).

(** A state whose collection was filled by another program: its one point
    carries a payload that is not a user's. *)
Definition foreign_state : State :=
  mkState
    {[ "users1" :=
         mkCollection (mkVectorParams 768 COSINE)
           {[ "7" := mkStoredPoint demo_vector [("title", VStr "a document")] ]} ]}
    0 [] 0 [].

(** A user who gave no age, and the state after a start and her creation. *)
Definition grace : User :=
  mkUser "Grace" "Admiral" ["compilers"] "Arlington" None.

Definition grace_state : State := (create_user demo_env grace started_state).2.
(** * Properties *)

(** ** The text serializer *)

Example str_int_42 : str_int 42 = "42".
Proof. reflexivity. Qed.

Example str_int_neg : str_int (-5) = "-5".
Proof. reflexivity. Qed.

Example user_to_text_ada :
  user_to_text (mkUser "Ada" "Engineer" ["chess"; "math"] "London" (Some 36))
  = "Name: Ada. Bio: Engineer. Interests: chess, math. Location: London. Age: 36".
Proof. reflexivity. Qed.

Lemma str_join_concat sep l : str_join sep l = String.concat sep l.
Proof.
  induction l as [|x l IH]; [reflexivity|].
  destruct l as [|y l]; [reflexivity|].
  change (str_join sep (x :: y :: l)) with (x +:+ sep +:+ str_join sep (y :: l)).
  change (String.concat sep (x :: y :: l))
    with (x +:+ sep +:+ String.concat sep (y :: l)).
  by rewrite IH.
Qed.

Lemma age_text_present z : z ≠ 0 → age_text (Some z) = str_int z.
Proof.
  intros Hz. unfold age_text, age_truthy.
  destruct (Z.eqb_spec z 0) as [->|_]; [done|reflexivity].
Qed.

(** C1, as the specification states it, fails: a user whose age is present
    and is 0 is serialised with [Unknown], not with [0]. *)
Lemma user_to_text_zero_age_counterexample :
  user_to_text (mkUser "Ada" "Engineer" ["chess"] "London" (Some 0))
    = "Name: Ada. Bio: Engineer. Interests: chess. Location: London. Age: Unknown"
  ∧ user_to_text_spec (mkUser "Ada" "Engineer" ["chess"] "London" (Some 0))
    = "Name: Ada. Bio: Engineer. Interests: chess. Location: London. Age: 0"
  ∧ user_to_text (mkUser "Ada" "Engineer" ["chess"] "London" (Some 0))
    ≠ user_to_text_spec (mkUser "Ada" "Engineer" ["chess"] "London" (Some 0)).
Proof. split_and!; [reflexivity | reflexivity | discriminate]. Qed.

(** C1, amended: for every User whose age is absent, or present and not 0,
    [user_to_text] returns the string
    [Name: <name>. Bio: <bio>. Interests: <interests joined by ", ">.
    Location: <location>. Age: <age>], with the decimal age when it is
    present and [Unknown] when it is absent.  The function is a total pure
    function of the user. *)
Theorem user_to_text_format (u : User) :
  u.(age) ≠ Some 0 → user_to_text u = user_to_text_spec u.
Proof.
  intros Hage. unfold user_to_text, user_to_text_spec.
  rewrite str_join_concat.
  destruct (age u) as [z|]; [|reflexivity].
  rewrite age_text_present by congruence. reflexivity.
Qed.

Lemma user_to_text_format_witness :
  ada.(age) ≠ Some 0 ∧ user_to_text ada = user_to_text_spec ada.
Proof. split; [discriminate | apply (user_to_text_format ada); discriminate]. Defined.

(** C10: a user whose age is present and equal to 0 is serialised with
    [Age: Unknown]; the text is the one of the same user without an age, and
    so is the run of the embedding client on it. *)
Theorem user_to_text_age_zero (E : Env) (n b : string) (i : list string) (l : string) :
  user_to_text (mkUser n b i l (Some 0))
    = "Name: " +:+ n +:+ ". Bio: " +:+ b +:+ ". Interests: " +:+ str_join ", " i
      +:+ ". Location: " +:+ l +:+ ". Age: Unknown"
  ∧ user_to_text (mkUser n b i l (Some 0)) = user_to_text (mkUser n b i l None)
  ∧ get_embedding E (user_to_text (mkUser n b i l (Some 0)))
    = get_embedding E (user_to_text (mkUser n b i l None)).
Proof. split_and!; reflexivity. Qed.

(** ** The embedding client *)

Section EmbeddingClient.
Variable E : Env.
Variables ollama_host text : string.

(** One turn of the loop sends one request, with a timeout of 30, and
    yields the embedding the reply can be used for, if any; it never
    raises, and touches nothing but the request log and the output. *)
Lemma try_model_run model s :
  ∃ out,
    try_model E ollama_host text model s
    = (Ok (usable_embedding
             (ollama E (length s.(requests))
                (embedding_request ollama_host model text))),
       set_stdout out
         (set_requests
            (s.(requests) ++ [embedding_request ollama_host model text]) s)).
Proof.
  destruct s as [cs qc rs uc out0].
  unfold try_model, try_except, bind, client_post, embedding_request,
    usable_embedding; cbn [requests].
  destruct (ollama E _ _) as [msg|[st bd]]; cbn.
  { eexists; reflexivity. }
  destruct (st =? 200); cbn; [|eexists; reflexivity].
  destruct bd as [msg|v]; cbn; [eexists; reflexivity|].
  destruct v as [| | | | | |d]; cbn; try (eexists; reflexivity).
  destruct (dict_get "embedding" d) as [v|]; cbn; [|eexists; reflexivity].
  destruct v; cbn; eexists; reflexivity.
Qed.

Lemma candidate_replies_cons n model models :
  candidate_replies E ollama_host text n (model :: models)
  = usable_embedding (ollama E n (embedding_request ollama_host model text))
      :: candidate_replies E ollama_host text (S n) models.
Proof.
  unfold candidate_replies. cbn [imap]. rewrite Nat.add_0_r. f_equal.
  apply imap_ext. intros i m _. cbn. by rewrite Nat.add_succ_r.
Qed.

Lemma candidate_replies_lookup n models i :
  candidate_replies E ollama_host text n models !! i
  = (λ model, usable_embedding
                (ollama E (n + i) (embedding_request ollama_host model text)))
      <$> models !! i.
Proof. unfold candidate_replies. by rewrite list_lookup_imap. Qed.

(** The loop asks the candidates in order up to the first usable reply. *)
Lemma embedding_loop_run models s :
  ∃ out,
    embedding_loop E ollama_host text models s
    = match list_find is_Some
              (candidate_replies E ollama_host text (length s.(requests)) models)
      with
      | Some (i, o) =>
          (from_option Ok (Raise all_failed) o,
           set_stdout out
             (set_requests
                (s.(requests)
                 ++ ((λ m, embedding_request ollama_host m text)
                       <$> take (S i) models)) s))
      | None =>
          (Raise all_failed,
           set_stdout out
             (set_requests
                (s.(requests)
                 ++ ((λ m, embedding_request ollama_host m text) <$> models)) s))
      end.
Proof.
  revert s. induction models as [|model models IH]; intros s.
  { exists s.(stdout). destruct s. cbn. by rewrite app_nil_r. }
  rewrite candidate_replies_cons. cbn [embedding_loop list_find].
  unfold bind at 1.
  destruct (try_model_run model s) as [out1 ->].
  destruct (usable_embedding _) as [v|] eqn:Hv.
  { rewrite decide_True by eauto. exists out1. reflexivity. }
  rewrite decide_False by (intros [? ?]; done).
  destruct (IH (set_stdout out1
                  (set_requests
                     (requests s ++ [embedding_request ollama_host model text]) s)))
    as [out2 ->].
  exists out2. destruct s as [cs qc rs uc out0]. cbn.
  rewrite length_app, Nat.add_1_r. cbn.
  destruct (list_find _ _) as [[i o]|]; cbn;
    unfold set_stdout, set_requests; cbn; by rewrite <- app_assoc.
Qed.

(** Either some candidate has a usable reply, and the loop returns the
    embedding of the first such one after asking it and those before it;
    or none has, and the loop raises the 500 after asking them all. *)
Lemma embedding_loop_first_usable models s :
  let reply i m :=
    usable_embedding
      (ollama E (length s.(requests) + i) (embedding_request ollama_host m text)) in
  let sent k out :=
    set_stdout out
      (set_requests
         (s.(requests)
          ++ ((λ m, embedding_request ollama_host m text) <$> take k models)) s) in
  (∃ i m v out,
      models !! i = Some m ∧ reply i m = Some v
      ∧ (∀ j m', (j < i)%nat → models !! j = Some m' → reply j m' = None)
      ∧ embedding_loop E ollama_host text models s = (Ok v, sent (S i) out))
  ∨ ((∀ i m, models !! i = Some m → reply i m = None)
     ∧ ∃ out, embedding_loop E ollama_host text models s
              = (Raise all_failed, sent (length models) out)).
Proof.
  intros reply sent.
  destruct (embedding_loop_run models s) as [out Hrun].
  destruct (list_find _ _) as [[i o]|] eqn:Hfind.
  - apply list_find_Some in Hfind as (Hi & [v ->] & Hbefore).
    rewrite candidate_replies_lookup in Hi.
    destruct (models !! i) as [m|] eqn:Hm; [|done].
    injection Hi as Hi.
    left. exists i, m, v, out. split_and!; [done..| |done].
    intros j m' Hj Hm'.
    specialize (Hbefore j (reply j m')).
    rewrite candidate_replies_lookup, Hm' in Hbefore.
    specialize (Hbefore eq_refl Hj).
    destruct (reply j m'); [|done]. destruct Hbefore; eauto.
  - right. split.
    + intros i m Hm.
      apply list_find_None in Hfind as Hall.
      rewrite Forall_lookup in Hall.
      specialize (Hall i (reply i m)).
      rewrite candidate_replies_lookup, Hm in Hall.
      specialize (Hall eq_refl).
      destruct (reply i m); [|done]. destruct Hall; eauto.
    + exists out. unfold sent. by rewrite firstn_all.
Qed.
End EmbeddingClient.

(** The two ways [get_embedding] can end. *)
Lemma get_embedding_cases (E : Env) (text : string) (s : State) :
  let ollama_host := os_environ_get E "OLLAMA_HOST" "localhost" in
  let request m :=
    mkRequest ("http://" +:+ ollama_host +:+ ":11434/api/embeddings") 30 m text in
  let reply i m := usable_embedding (ollama E (length s.(requests) + i) (request m)) in
  let sent k out :=
    set_stdout out
      (set_requests (s.(requests) ++ (request <$> take k models_to_try)) s) in
  (∃ i m v out,
      models_to_try !! i = Some m ∧ reply i m = Some v
      ∧ (∀ j m', (j < i)%nat → models_to_try !! j = Some m' → reply j m' = None)
      ∧ get_embedding E text s = (Ok v, sent (S i) out))
  ∨ ((∀ i m, models_to_try !! i = Some m → reply i m = None)
     ∧ ∃ out, get_embedding E text s
              = (Raise all_failed, sent (length models_to_try) out)).
Proof.
  exact (embedding_loop_first_usable E (os_environ_get E "OLLAMA_HOST" "localhost")
           text models_to_try s).
Qed.

(** [get_embedding] leaves the store and the UUID generator alone. *)
Lemma get_embedding_frame (E : Env) (text : string) (s s' : State) r :
  get_embedding E text s = (r, s') →
  s'.(collections) = s.(collections)
  ∧ s'.(qdrant_calls) = s.(qdrant_calls)
  ∧ s'.(uuid_calls) = s.(uuid_calls).
Proof.
  intros Hrun.
  destruct (get_embedding_cases E text s)
    as [(i & m & v & out & _ & _ & _ & Hok)|[_ [out Hko]]];
    [rewrite Hok in Hrun|rewrite Hko in Hrun];
    injection Hrun as _ <-; by destruct s.
Qed.

(** C4: [get_embedding] asks the candidate models in the order of
    [models_to_try], each with one request whose timeout is 30.  It returns
    the embedding of the first candidate whose reply has status 200 and an
    embedding that is not null, after skipping those before it (status other
    than 200, null or missing embedding, exception of the transport or of
    the decoding).  It raises the [HTTPException] with status 500 and the
    detail [Failed to generate embedding with any available model] if and
    only if every candidate fails, and raises nothing else. *)
Theorem get_embedding_first_usable (E : Env) (text : string) (s : State) :
  let ollama_host := os_environ_get E "OLLAMA_HOST" "localhost" in
  let request m :=
    mkRequest ("http://" +:+ ollama_host +:+ ":11434/api/embeddings") 30 m text in
  let reply i m := usable_embedding (ollama E (length s.(requests) + i) (request m)) in
  let sent k out :=
    set_stdout out
      (set_requests (s.(requests) ++ (request <$> take k models_to_try)) s) in
  let every_candidate_fails :=
    ∀ i m, models_to_try !! i = Some m → reply i m = None in
  ((∃ i m v out,
       models_to_try !! i = Some m ∧ reply i m = Some v
       ∧ (∀ j m', (j < i)%nat → models_to_try !! j = Some m' → reply j m' = None)
       ∧ get_embedding E text s = (Ok v, sent (S i) out))
   ∨ (every_candidate_fails
      ∧ ∃ out, get_embedding E text s
               = (Raise (HTTPException 500
                           "Failed to generate embedding with any available model"),
                  sent (length models_to_try) out)))
  ∧ ((∃ e s', get_embedding E text s = (Raise e, s')) ↔ every_candidate_fails)
  ∧ (∀ e s', get_embedding E text s = (Raise e, s')
             → e = HTTPException 500
                     "Failed to generate embedding with any available model").
Proof.
  intros ollama_host request reply sent every_candidate_fails.
  pose proof (get_embedding_cases E text s) as Hloop. cbv zeta in Hloop.
  split; [exact Hloop|].
  destruct Hloop as [(i & m & v & out & Hm & Hv & _ & Hrun)|[Hall [out Hrun]]].
  - split; [split|].
    + intros (e & s' & He). rewrite Hrun in He. discriminate.
    + intros Hall. specialize (Hall i m Hm).
      enough (Some v = None) by discriminate. rewrite <- Hv. exact Hall.
    + intros e s' He. rewrite Hrun in He. discriminate.
  - split; [split|].
    + intros _. exact Hall.
    + intros _. eauto.
    + intros e s' He. rewrite Hrun in He. by injection He as <- _.
Qed.

Example get_embedding_second_candidate :
  (embedding_loop
     (mkEnv (λ _, None)
            (λ n _, match n with
                    | O => Replied (mkResponse 503 (NotJson "Service Unavailable"))
                    | _ => Replied (mkResponse 200
                                      (Json (VDict [("embedding", VList [VFloat 1])])))
                    end)
            (λ _, "") (λ _, None) (λ _ _, 0%Q) (λ _, None))
     "localhost" "hello" ["first"; "second"] boot_state).1
  = Ok (VList [VFloat 1]).
Proof. reflexivity. Qed.

(** C3: when every candidate model fails (exception of the transport, a
    status other than 200, or a null or missing embedding), [create_user]
    and [find_similar_user] both end with the [HTTPException] of status 500;
    neither makes a call to the vector store, whose collections are left as
    they were, and no UUID is drawn. *)
Theorem embedding_failure_is_500 (E : Env) (u : User) (s : State) :
  (∀ i m, models_to_try !! i = Some m →
     usable_embedding
       (ollama E (length s.(requests) + i)
          (mkRequest ("http://" +:+ os_environ_get E "OLLAMA_HOST" "localhost"
                      +:+ ":11434/api/embeddings") 30 m (user_to_text u)))
     = None) →
  ∃ s1 s2,
    create_user E u s
    = (Raise (HTTPException 500
                "Failed to generate embedding with any available model"), s1)
    ∧ http_status (create_user E u s).1 = 500
    ∧ s1.(collections) = s.(collections)
    ∧ s1.(qdrant_calls) = s.(qdrant_calls)
    ∧ s1.(uuid_calls) = s.(uuid_calls)
    ∧ find_similar_user E u s
      = (Raise (HTTPException 500
                  "Failed to generate embedding with any available model"), s2)
    ∧ http_status (find_similar_user E u s).1 = 500
    ∧ s2.(collections) = s.(collections)
    ∧ s2.(qdrant_calls) = s.(qdrant_calls).
Proof.
  intros Hall.
  destruct (get_embedding_cases E (user_to_text u) s)
    as [(i & m & v & out & Hm & Hv & _ & _)|[_ [out Hko]]].
  { specialize (Hall i m Hm).
    enough (Some v = None) by discriminate. rewrite <- Hv. exact Hall. }
  destruct (get_embedding_frame _ _ _ _ _ Hko) as (Hc & Hq & Hu).
  eexists _, _.
  unfold create_user, find_similar_user, bind. rewrite Hko.
  cbn [fst http_status all_failed].
  split_and!; done.
Qed.

Lemma embedding_failure_is_500_witness :
  http_status (create_user offline_env ada started_state).1 = 500
  ∧ http_status (find_similar_user offline_env ada started_state).1 = 500.
Proof.
  destruct (embedding_failure_is_500 offline_env ada started_state)
    as (s1 & s2 & _ & Hc & _ & _ & _ & _ & Hf & _).
  - intros i m _. reflexivity.
  - exact (conj Hc Hf).
Defined.

(** ** Creating and getting users *)

Lemma set_collections_same (s : State) n :
  set_collections s.(collections) (set_qdrant_calls n s) = set_qdrant_calls n s.
Proof. by destruct s. Qed.

Lemma validate_interests (l : list string) :
  validate_str_list (Some (VList (VStr <$> l))) = Some l.
Proof.
  cbn. induction l as [|x l IH]; [reflexivity|].
  cbn. cbn in IH. by rewrite IH.
Qed.

(** Validation gives back the user a payload was made of, when the user has
    an age. *)
Lemma User_of_dict_User_dict (E : Env) (u : User) :
  u.(age) ≠ None → User_of_dict E (User_dict u) = Ok u.
Proof.
  destruct u as [n b i l a]. unfold User_of_dict, User_dict.
  cbn [dict_get name bio interests location age String.eqb Ascii.eqb Bool.eqb].
  rewrite validate_interests. cbn.
  by destruct a.
Qed.

(** The payload of a user without an age carries an explicit null, which
    the validation of the integer field refuses. *)
Lemma User_of_dict_ageless (E : Env) (u : User) :
  u.(age) = None →
  User_of_dict E (User_dict u) = Raise (Exception "validation error for User").
Proof.
  destruct u as [n b i l a]. cbn [age]. intros ->.
  unfold User_of_dict, User_dict.
  cbn [dict_get name bio interests location age String.eqb Ascii.eqb Bool.eqb].
  by rewrite validate_interests.
Qed.

(** Validation fails in one way only. *)
Lemma User_of_dict_raises (E : Env) d e :
  User_of_dict E d = Raise e → e = Exception "validation error for User".
Proof.
  unfold User_of_dict.
  repeat (match goal with
          | |- context [match ?x with _ => _ end] => destruct x
          end); congruence.
Qed.

(** What [get_user] does when the store answers and holds the collection. *)
Lemma get_user_run (E : Env) (user_id : string) (s : State) (c : Collection) :
  qdrant_fault E s.(qdrant_calls) = None →
  s.(collections) !! COLLECTION_NAME = Some c →
  get_user E user_id s
  = (match c.(points) !! user_id with
     | Some p =>
         match User_of_dict E p.(payload) with
         | Ok u => Ok (mkUserResponse user_id u None)
         | Raise e => Raise e
         end
     | None => Raise (HTTPException 404 "User not found")
     end,
     set_qdrant_calls (S s.(qdrant_calls)) s).
Proof.
  intros Hup Hc. unfold get_user, bind, retrieve, qdrant_call.
  rewrite Hup, Hc. cbn [omap list_omap]. rewrite set_collections_same.
  destruct (points c !! user_id) as [p|]; cbn; [|done].
  unfold lift, bind. by destruct (User_of_dict E (payload p)).
Qed.

(** What a successful [create_user] has done: the embedding came back, the
    id is the UUID drawn, and the point went into the collection. *)
Lemma create_user_inv (E : Env) (u : User) (s s1 : State) (r : UserResponse) :
  create_user E u s = (Ok r, s1) →
  ∃ embedding s0 c,
    get_embedding E (user_to_text u) s = (Ok embedding, s0)
    ∧ r = mkUserResponse (uuid4 E s.(uuid_calls)) u None
    ∧ s.(collections) !! COLLECTION_NAME = Some c
    ∧ s1.(collections)
      = <[COLLECTION_NAME :=
            mkCollection c.(config)
              (<[uuid4 E s.(uuid_calls) :=
                   mkStoredPoint embedding (User_dict u)]> c.(points))]>
          s.(collections)
    ∧ s1.(qdrant_calls) = S s.(qdrant_calls)
    ∧ s1.(uuid_calls) = S s.(uuid_calls).
Proof.
  unfold create_user, bind at 1.
  destruct (get_embedding E (user_to_text u) s) as [[embedding|e] s0] eqn:Hemb;
    [|discriminate].
  destruct (get_embedding_frame _ _ _ _ _ Hemb) as (Hc & Hq & Hu).
  unfold bind, uuid4_str, upsert, qdrant_call.
  cbn [qdrant_calls collections set_uuid_calls set_qdrant_calls].
  destruct (qdrant_fault E (qdrant_calls s0)); [discriminate|].
  destruct (collections s0 !! COLLECTION_NAME) as [c|] eqn:Hcol; [|discriminate].
  cbn [forallb ps_vector foldl ps_id ps_payload].
  destruct (is_vector _ _ && true); [|discriminate].
  cbn. intros [= <- <-]. exists embedding, s0, c.
  rewrite <- Hc, <- Hq, <- Hu, Hcol. by destruct s0.
Qed.

(** C6, as the specification states it, fails: a point can be there under
    the id, and [get_user] raise instead of returning it.  So it is for the
    point the service itself stored for a user without an age, and for a
    point another program stored. *)
Lemma get_user_existing_point_counterexample :
  (∃ c p, grace_state.(collections) !! COLLECTION_NAME = Some c
          ∧ c.(points) !! "00000000-0000-4000-8000-0" = Some p
          ∧ p.(payload) = User_dict grace)
  ∧ (∃ msg, (get_user demo_env "00000000-0000-4000-8000-0" grace_state).1
            = Raise (Exception msg))
  ∧ http_status (get_user demo_env "00000000-0000-4000-8000-0" grace_state).1
    = 500
  ∧ (∃ c p, foreign_state.(collections) !! COLLECTION_NAME = Some c
            ∧ c.(points) !! "7" = Some p)
  ∧ (∃ msg, (get_user demo_env "7" foreign_state).1 = Raise (Exception msg))
  ∧ http_status (get_user demo_env "7" foreign_state).1 = 500.
Proof.
  split_and!.
  - eexists (mkCollection (mkVectorParams 768 COSINE)
               (<["00000000-0000-4000-8000-0" :=
                    mkStoredPoint demo_vector (User_dict grace)]> ∅)), _.
    split_and!; [vm_compute; reflexivity|apply lookup_insert_eq|reflexivity].
  - eexists. vm_compute. reflexivity.
  - vm_compute. reflexivity.
  - eexists _, _. split; reflexivity.
  - eexists. vm_compute. reflexivity.
  - vm_compute. reflexivity.
Qed.

(** C6, amended: when the store answers and holds the collection, [get_user]
    returns the id of the stored point and the user its payload validates
    to, if a point with that id exists and its payload validates as a User;
    the payload [user.dict()] of a user with an age does, and the user
    returned is then that user.  It raises the [HTTPException] of status 404
    if no point with that id exists. *)
Theorem get_user_found_or_404 (E : Env) (user_id : string) (s : State)
    (c : Collection) :
  qdrant_fault E s.(qdrant_calls) = None →
  s.(collections) !! COLLECTION_NAME = Some c →
  (∀ p u, c.(points) !! user_id = Some p → User_of_dict E p.(payload) = Ok u →
     get_user E user_id s
     = (Ok (mkUserResponse user_id u None), set_qdrant_calls (S s.(qdrant_calls)) s))
  ∧ (∀ p u, c.(points) !! user_id = Some p → p.(payload) = User_dict u →
            u.(age) ≠ None →
     get_user E user_id s
     = (Ok (mkUserResponse user_id u None), set_qdrant_calls (S s.(qdrant_calls)) s))
  ∧ (c.(points) !! user_id = None →
     get_user E user_id s
     = (Raise (HTTPException 404 "User not found"),
        set_qdrant_calls (S s.(qdrant_calls)) s)
     ∧ http_status (get_user E user_id s).1 = 404).
Proof.
  intros Hup Hc. rewrite (get_user_run E user_id s c Hup Hc). split_and!.
  - intros p u -> ->. reflexivity.
  - intros p u -> -> Hage. by rewrite User_of_dict_User_dict.
  - intros ->. done.
Qed.

Lemma get_user_found_or_404_witness :
  (get_user demo_env "00000000-0000-4000-8000-0" ada_state).1
  = Ok (mkUserResponse "00000000-0000-4000-8000-0" ada None)
  ∧ http_status (get_user demo_env "nobody" ada_state).1 = 404.
Proof.
  destruct (get_user_found_or_404 demo_env "00000000-0000-4000-8000-0" ada_state
              (mkCollection (mkVectorParams 768 COSINE)
                 (<["00000000-0000-4000-8000-0" :=
                      mkStoredPoint demo_vector (User_dict ada)]> ∅)))
    as (_ & Hfound & _); [reflexivity|vm_compute; reflexivity|].
  destruct (get_user_found_or_404 demo_env "nobody" ada_state
              (mkCollection (mkVectorParams 768 COSINE)
                 (<["00000000-0000-4000-8000-0" :=
                      mkStoredPoint demo_vector (User_dict ada)]> ∅)))
    as (_ & _ & Hmiss); [reflexivity|vm_compute; reflexivity|].
  split.
  - rewrite (Hfound (mkStoredPoint demo_vector (User_dict ada)) ada);
      [reflexivity|apply lookup_insert_eq|reflexivity|discriminate].
  - apply Hmiss. reflexivity.
Defined.

(** C2, where the code fails it: when [create_user] succeeds on a user
    without an age and returns an id, [get_user] on that id, the store
    answering, does not return the user: the payload stored carries a null
    age, which the validation of [User] refuses, and the handler ends with
    the validation error, a 500 for the client. *)
Theorem create_then_get_ageless_fails (E : Env) (u : User) (s s1 : State)
    (r : UserResponse) :
  u.(age) = None →
  create_user E u s = (Ok r, s1) →
  qdrant_fault E s1.(qdrant_calls) = None →
  (∃ msg, get_user E r.(id) s1
          = (Raise (Exception msg), set_qdrant_calls (S s1.(qdrant_calls)) s1))
  ∧ http_status (get_user E r.(id) s1).1 = 500.
Proof.
  intros Hage Hcreate Hup.
  destruct (create_user_inv _ _ _ _ _ Hcreate)
    as (embedding & s0 & c & _ & -> & _ & Hs1 & _).
  erewrite get_user_run; [|done|].
  2:{ rewrite Hs1. apply lookup_insert_eq. }
  cbn [points id]. rewrite lookup_insert_eq. cbn [payload].
  rewrite (User_of_dict_ageless E u Hage). eauto.
Qed.

Lemma create_then_get_ageless_fails_witness :
  (create_user demo_env grace started_state).1
  = Ok (mkUserResponse "00000000-0000-4000-8000-0" grace None)
  ∧ http_status (get_user demo_env "00000000-0000-4000-8000-0" grace_state).1
    = 500.
Proof.
  split; [vm_compute; reflexivity|].
  apply (create_then_get_ageless_fails demo_env grace started_state grace_state
           (mkUserResponse "00000000-0000-4000-8000-0" grace None)).
  - reflexivity.
  - vm_compute. reflexivity.
  - reflexivity.
Defined.

(** C8: [create_user] is not idempotent.  Two successful calls in a row with
    the same user return the two UUIDs drawn, whatever the user is; the
    generator giving two different values, the two ids differ, both are in
    the collection afterwards with the user's payload, every other point is
    as before, and the collection has two more points when the ids were not
    in it. *)
Theorem create_twice_two_points (E : Env) (u : User) (s s1 s2 : State)
    (r1 r2 : UserResponse) :
  create_user E u s = (Ok r1, s1) →
  create_user E u s1 = (Ok r2, s2) →
  uuid4 E s.(uuid_calls) ≠ uuid4 E (S s.(uuid_calls)) →
  r1.(id) = uuid4 E s.(uuid_calls)
  ∧ r2.(id) = uuid4 E (S s.(uuid_calls))
  ∧ r1.(id) ≠ r2.(id)
  ∧ ∃ c c2 p1 p2,
      s.(collections) !! COLLECTION_NAME = Some c
      ∧ s2.(collections) !! COLLECTION_NAME = Some c2
      ∧ c2.(points) !! r1.(id) = Some p1 ∧ p1.(payload) = User_dict u
      ∧ c2.(points) !! r2.(id) = Some p2 ∧ p2.(payload) = User_dict u
      ∧ (∀ j, j ≠ r1.(id) → j ≠ r2.(id) → c2.(points) !! j = c.(points) !! j)
      ∧ (c.(points) !! r1.(id) = None → c.(points) !! r2.(id) = None →
         size c2.(points) = S (S (size c.(points)))).
Proof.
  intros Hfirst Hsecond Hfresh.
  destruct (create_user_inv _ _ _ _ _ Hfirst)
    as (e1 & s0 & c & _ & -> & Hc & Hs1 & _ & Hu1).
  destruct (create_user_inv _ _ _ _ _ Hsecond)
    as (e2 & s0' & c1 & _ & -> & Hc1 & Hs2 & _ & _).
  rewrite Hu1 in *. rewrite Hs1, lookup_insert_eq in Hc1.
  injection Hc1 as <-. cbn [config points] in Hs2. cbn [id].
  set (i1 := uuid4 E (uuid_calls s)) in *.
  set (i2 := uuid4 E (S (uuid_calls s))) in *.
  split_and!; [done..|].
  eexists c, _, _, _. split; [done|].
  split; [rewrite Hs2; apply lookup_insert_eq|]. cbn [points].
  split_and!.
  - rewrite lookup_insert_ne by done. apply lookup_insert_eq.
  - done.
  - apply lookup_insert_eq.
  - done.
  - intros j Hj1 Hj2. by rewrite !lookup_insert_ne.
  - intros Hn1 Hn2.
    rewrite map_size_insert_None
      by (rewrite lookup_insert_ne by done; exact Hn2).
    by rewrite map_size_insert_None.
Qed.

Lemma create_twice_two_points_witness :
  ∃ r1 r2 s1 s2,
    create_user demo_env ada started_state = (Ok r1, s1)
    ∧ create_user demo_env ada s1 = (Ok r2, s2)
    ∧ r1.(id) ≠ r2.(id).
Proof.
  exists (mkUserResponse "00000000-0000-4000-8000-0" ada None),
         (mkUserResponse "00000000-0000-4000-8000-1" ada None),
         (create_user demo_env ada started_state).2,
         (create_user demo_env ada (create_user demo_env ada started_state).2).2.
  assert (H1 : create_user demo_env ada started_state
               = (Ok (mkUserResponse "00000000-0000-4000-8000-0" ada None),
                  (create_user demo_env ada started_state).2))
    by (vm_compute; reflexivity).
  assert (H2 : create_user demo_env ada (create_user demo_env ada started_state).2
               = (Ok (mkUserResponse "00000000-0000-4000-8000-1" ada None),
                  (create_user demo_env ada
                     (create_user demo_env ada started_state).2).2))
    by (vm_compute; reflexivity).
  split_and!; [exact H1|exact H2|].
  refine (proj1 (proj2 (proj2
    (create_twice_two_points demo_env ada _ _ _ _ _ H1 H2 _)))).
  vm_compute. discriminate.
Defined.

(** ** Finding the most similar user *)

Section Ranking.
Variable E : Env.
Variable query_vector : value.

Lemma better_le a b : better a b ↔ (b.(score) <= a.(score))%Q.
Proof. unfold better. rewrite Is_true_true. apply Qle_bool_iff. Qed.

#[local] Instance better_trans : Transitive better.
Proof.
  intros a b c. rewrite !better_le. intros Hab Hbc. by apply Qle_trans with (score b).
Qed.

#[local] Instance better_total : Total better.
Proof.
  intros a b. rewrite !better_le.
  destruct (Qlt_le_dec (score a) (score b)) as [Hlt|Hle]; [|by left].
  right. by apply Qlt_le_weak.
Qed.

Local Abbreviation scored := (scored E query_vector).

Lemma ranked_Permutation pts :
  ranked E query_vector pts ≡ₚ scored <$> map_to_list pts.
Proof. apply merge_sort_Permutation. Qed.

Lemma ranked_length pts : length (ranked E query_vector pts) = size pts.
Proof.
  by rewrite ranked_Permutation, length_fmap, length_map_to_list.
Qed.

Lemma ranked_nil pts : ranked E query_vector pts = [] ↔ pts = ∅.
Proof.
  rewrite <- length_zero_iff_nil, ranked_length. apply map_size_empty_iff.
Qed.

(** A hit is a stored point with its score. *)
Lemma ranked_elem_of pts hit :
  hit ∈ ranked E query_vector pts ↔
  ∃ p, pts !! hit.(hit_id) = Some p
       ∧ hit.(hit_payload) = p.(payload)
       ∧ hit.(score) = similarity E query_vector p.(vector).
Proof.
  rewrite ranked_Permutation, list_elem_of_fmap. split.
  - intros ([i p] & -> & Hip). apply elem_of_map_to_list in Hip.
    exists p. by cbn.
  - intros (p & Hp & Hpay & Hsc). exists (hit.(hit_id), p). split.
    + destruct hit; cbn in *. unfold scored; cbn. by subst.
    + by apply elem_of_map_to_list.
Qed.

(** The first hit has the best score of the collection. *)
Lemma ranked_head_best pts top rest j p :
  ranked E query_vector pts = top :: rest →
  pts !! j = Some p →
  (similarity E query_vector p.(vector) <= top.(score))%Q.
Proof.
  intros Hranked Hp.
  assert (Hin : scored (j, p) ∈ ranked E query_vector pts).
  { apply ranked_elem_of. exists p. by cbn. }
  pose proof (StronglySorted_merge_sort better
                (scored <$> map_to_list pts)) as Hsorted.
  change (StronglySorted better (ranked E query_vector pts)) in Hsorted.
  rewrite Hranked in Hin, Hsorted.
  apply StronglySorted_inv in Hsorted as [_ Hall].
  apply elem_of_cons in Hin as [<-|Hin].
  - apply Qle_refl.
  - rewrite Forall_forall in Hall. specialize (Hall _ Hin).
    by apply better_le in Hall.
Qed.
End Ranking.

(** What a successful [search] has returned. *)
Lemma search_inv (E : Env) (query_vector : value) (limit : Z) (s s1 : State)
    (results : list ScoredPoint) :
  search E COLLECTION_NAME query_vector limit s = (Ok results, s1) →
  ∃ c, s.(collections) !! COLLECTION_NAME = Some c
       ∧ results = take (Z.to_nat limit) (ranked E query_vector c.(points))
       ∧ s1 = set_qdrant_calls (S s.(qdrant_calls)) s.
Proof.
  unfold search, qdrant_call.
  destruct (qdrant_fault E (qdrant_calls s)); [discriminate|].
  destruct (collections s !! COLLECTION_NAME) as [c|]; [|discriminate].
  destruct (is_vector _ _); [|discriminate].
  intros [= <- <-]. exists c. by rewrite set_collections_same.
Qed.

(** C5, as the specification states it, fails: the search can return a
    top hit, and [find_similar_user] raise instead of returning it.  So it
    is when the top hit is the point the service itself stored for a user
    without an age, and when it is a point another program stored. *)
Lemma find_similar_top_hit_counterexample :
  (∃ c, grace_state.(collections) !! COLLECTION_NAME = Some c
        ∧ size c.(points) = 1%nat)
  ∧ (∃ msg, (find_similar_user demo_env ada grace_state).1
            = Raise (Exception msg))
  ∧ http_status (find_similar_user demo_env ada grace_state).1 = 500
  ∧ (∃ msg, (find_similar_user demo_env ada foreign_state).1
            = Raise (Exception msg))
  ∧ http_status (find_similar_user demo_env ada foreign_state).1 = 500.
Proof.
  split_and!.
  - eexists (mkCollection (mkVectorParams 768 COSINE)
               (<["00000000-0000-4000-8000-0" :=
                    mkStoredPoint demo_vector (User_dict grace)]> ∅)).
    split; [vm_compute; reflexivity|].
    cbn [points]. by rewrite insert_empty, map_size_singleton.
  - eexists. vm_compute. reflexivity.
  - vm_compute. reflexivity.
  - eexists. vm_compute. reflexivity.
  - vm_compute. reflexivity.
Qed.

(** C5, amended: the embedding of the query obtained and the
    nearest-neighbour search having answered, [find_similar_user] raises the
    [HTTPException] of status 404 when the result set is empty, which it is
    exactly when the collection holds no point; otherwise the result set is
    the single top hit, a stored point with the best similarity of the
    collection, and, when its payload validates as a User, the handler
    returns its id, the user the payload validates to, and its score.  The
    payload [user.dict()] of a user with an age validates, to that user. *)
Theorem find_similar_404_or_top_hit (E : Env) (u : User) (s s0 s1 : State)
    (embedding : value) (results : list ScoredPoint) :
  get_embedding E (user_to_text u) s = (Ok embedding, s0) →
  search E COLLECTION_NAME embedding 1 s0 = (Ok results, s1) →
  (results = [] →
     find_similar_user E u s
     = (Raise (HTTPException 404 "No similar users found"), s1)
     ∧ http_status (find_similar_user E u s).1 = 404)
  ∧ (∀ c, s.(collections) !! COLLECTION_NAME = Some c →
          (results = [] ↔ c.(points) = ∅))
  ∧ (∀ top rest, results = top :: rest →
       rest = []
       ∧ (∀ v, User_of_dict E top.(hit_payload) = Ok v →
            find_similar_user E u s
            = (Ok (mkUserResponse top.(hit_id) v (Some top.(score))), s1))
       ∧ (∀ v, top.(hit_payload) = User_dict v → v.(age) ≠ None →
            find_similar_user E u s
            = (Ok (mkUserResponse top.(hit_id) v (Some top.(score))), s1))
       ∧ ∃ c p,
           s.(collections) !! COLLECTION_NAME = Some c
           ∧ c.(points) !! top.(hit_id) = Some p
           ∧ top.(hit_payload) = p.(payload)
           ∧ top.(score) = similarity E embedding p.(vector)
           ∧ ∀ j p', c.(points) !! j = Some p' →
                     (similarity E embedding p'.(vector) <= top.(score))%Q).
Proof.
  intros Hemb Hsearch.
  destruct (get_embedding_frame _ _ _ _ _ Hemb) as (Hcs & _ & _).
  destruct (search_inv _ _ _ _ _ _ Hsearch) as (c & Hc & Hres & _).
  rewrite Hcs in Hc.
  assert (Hrun : find_similar_user E u s
                 = match results with
                   | [] => (Raise (HTTPException 404 "No similar users found"), s1)
                   | top :: _ =>
                       match User_of_dict E top.(hit_payload) with
                       | Ok v => (Ok (mkUserResponse top.(hit_id) v
                                        (Some top.(score))), s1)
                       | Raise e => (Raise e, s1)
                       end
                   end).
  { unfold find_similar_user, bind at 1. rewrite Hemb.
    unfold bind at 1. rewrite Hsearch.
    destruct results as [|top rest]; [done|].
    unfold bind, lift. by destruct (User_of_dict E _). }
  change (Z.to_nat 1) with 1%nat in Hres.
  split_and!.
  - intros ->. by rewrite Hrun.
  - intros c' Hc'. assert (c' = c) as -> by congruence.
    rewrite <- ranked_nil with (E := E) (query_vector := embedding).
    rewrite Hres. by destruct (ranked E embedding (points c)).
  - intros top rest ->.
    destruct (ranked E embedding (points c)) as [|top' tl] eqn:Hranked;
      [discriminate|].
    cbn in Hres. injection Hres as <- ->.
    split_and!; [done| | |].
    + intros v Hv. by rewrite Hrun, Hv.
    + intros v Hv Hage. by rewrite Hrun, Hv, User_of_dict_User_dict.
    + assert (Hin : top ∈ ranked E embedding (points c))
        by (rewrite Hranked; left).
      apply ranked_elem_of in Hin as (p & Hp & Hpay & Hsc).
      exists c, p. split_and!; [done..|].
      intros j p' Hp'. by eapply ranked_head_best.
Qed.

Lemma find_similar_404_or_top_hit_witness :
  http_status (find_similar_user demo_env ada started_state).1 = 404
  ∧ (find_similar_user demo_env ada ada_state).1
    = Ok (mkUserResponse "00000000-0000-4000-8000-0" ada (Some 1%Q)).
Proof.
  split.
  - edestruct (find_similar_404_or_top_hit demo_env ada started_state)
      as [H404 _].
    + vm_compute. reflexivity.
    + vm_compute. reflexivity.
    + apply H404. reflexivity.
  - edestruct (find_similar_404_or_top_hit demo_env ada ada_state
                 (get_embedding demo_env (user_to_text ada) ada_state).2
                 (find_similar_user demo_env ada ada_state).2
                 demo_vector
                 [mkScoredPoint "00000000-0000-4000-8000-0" (User_dict ada) 1%Q])
      as (_ & _ & Hhit).
    + vm_compute. reflexivity.
    + vm_compute. reflexivity.
    + destruct (Hhit _ _ eq_refl) as (_ & _ & Hada & _).
      rewrite (Hada ada); [reflexivity|reflexivity|discriminate].
Defined.

Example find_similar_after_create :
  (find_similar_user demo_env ada
     (create_user demo_env ada started_state).2).1
  = Ok (mkUserResponse "00000000-0000-4000-8000-0" ada (Some 1%Q)).
Proof. vm_compute. reflexivity. Qed.

(** ** Listing users *)

(** The comprehension of [list_users] on records whose payloads are users'. *)
Lemma for_each_validate (E : Env) (l : list PointRecord) (s : State) :
  Forall (λ r, ∃ u, User_of_dict E r.(rec_payload) = Ok u) l →
  ∃ out,
    for_each (λ point, u <- lift (User_of_dict E point.(rec_payload)) ;;
                       ret (mkUserResponse point.(rec_id) u None)) l s
    = (Ok out, s)
    ∧ Forall2 (λ r o, o.(id) = r.(rec_id)
                      ∧ User_of_dict E r.(rec_payload) = Ok o.(user)
                      ∧ o.(similarity_score) = None) l out.
Proof.
  induction 1 as [|r l [u Hu] _ (out & Hrun & Hall)].
  { exists []. by split. }
  exists (mkUserResponse r.(rec_id) u None :: out). split.
  - cbn [for_each]. unfold bind at 1. unfold bind at 1. unfold lift at 1.
    rewrite Hu. unfold ret at 1. unfold bind at 1. by rewrite Hrun.
  - by constructor.
Qed.

(** The records [scroll] builds are the points of the collection, once each. *)
Lemma records_of_points (pts : gmap string StoredPoint) :
  let all := (λ ip, mkPointRecord ip.1 ip.2.(payload)) <$> map_to_list pts in
  length all = size pts
  ∧ NoDup (rec_id <$> all)
  ∧ ∀ r, r ∈ all →
         ∃ p, pts !! r.(rec_id) = Some p ∧ r.(rec_payload) = p.(payload).
Proof.
  cbv zeta. split_and!.
  - by rewrite length_fmap, length_map_to_list.
  - rewrite <- list_fmap_compose.
    apply (NoDup_fst_map_to_list pts).
  - intros r ([i p] & -> & Hip)%list_elem_of_fmap.
    apply elem_of_map_to_list in Hip. by exists p.
Qed.

(** What [list_users] runs when the store answers. *)
Lemma list_users_run (E : Env) (s : State) (c : Collection) :
  qdrant_fault E s.(qdrant_calls) = None →
  s.(collections) !! COLLECTION_NAME = Some c →
  list_users E s
  = for_each (λ point, u <- lift (User_of_dict E point.(rec_payload)) ;;
                       ret (mkUserResponse point.(rec_id) u None))
      (take 100 ((λ ip, mkPointRecord ip.1 ip.2.(payload))
                   <$> map_to_list c.(points)))
      (set_qdrant_calls (S s.(qdrant_calls)) s).
Proof.
  intros Hup Hc. unfold list_users, bind at 1, scroll, qdrant_call.
  by rewrite Hup, Hc, set_collections_same.
Qed.

(** One record that does not validate makes the comprehension raise. *)
Lemma for_each_validate_fails (E : Env) (l : list PointRecord) (s : State) :
  Exists (λ r, ∃ e, User_of_dict E r.(rec_payload) = Raise e) l →
  ∃ e,
    (for_each (λ point, u <- lift (User_of_dict E point.(rec_payload)) ;;
                        ret (mkUserResponse point.(rec_id) u None)) l s).1
    = Raise (Exception e).
Proof.
  induction l as [|r l IH]; intros Hex; [by apply Exists_nil in Hex|].
  cbn [for_each]. unfold bind at 1. unfold bind at 1. unfold lift at 1.
  destruct (User_of_dict E (rec_payload r)) as [u|e] eqn:Hr.
  - apply Exists_cons in Hex as [[e He]|Hex]; [congruence|].
    destruct (IH Hex) as [e He].
    unfold ret at 1. unfold bind at 1.
    destruct (for_each _ l s) as [[out|e'] s']; cbn in He; [done|].
    exists e. cbn. congruence.
  - apply User_of_dict_raises in Hr as ->. eauto.
Qed.

(** With at most 100 points, one stored payload that does not validate
    makes the listing raise. *)
Lemma list_users_invalid (E : Env) (s : State) (c : Collection) (i : string)
    (p : StoredPoint) (e : exn) :
  qdrant_fault E s.(qdrant_calls) = None →
  s.(collections) !! COLLECTION_NAME = Some c →
  (size c.(points) ≤ 100)%nat →
  c.(points) !! i = Some p →
  User_of_dict E p.(payload) = Raise e →
  (∃ msg, (list_users E s).1 = Raise (Exception msg))
  ∧ http_status (list_users E s).1 = 500.
Proof.
  intros Hup Hc Hsize Hp He.
  rewrite (list_users_run E s c Hup Hc).
  destruct (records_of_points c.(points)) as (Hlen & _ & _).
  rewrite take_ge by lia.
  destruct (for_each_validate_fails E
              ((λ ip, mkPointRecord ip.1 ip.2.(payload)) <$> map_to_list c.(points))
              (set_qdrant_calls (S s.(qdrant_calls)) s)) as [msg Hmsg].
  { apply Exists_exists. exists (mkPointRecord i p.(payload)). split.
    - apply list_elem_of_fmap. exists (i, p). split; [done|].
      by apply elem_of_map_to_list.
    - by exists e. }
  rewrite Hmsg. eauto.
Qed.

(** C7, as the specification states it, fails: [list_users] can fail.  On
    the collection the service itself filled with one user, who gave no
    age, it raises instead of returning the one entry; so it does on a
    collection another program filled. *)
Lemma list_users_fails_counterexample :
  (∃ c, grace_state.(collections) !! COLLECTION_NAME = Some c
        ∧ size c.(points) = 1%nat)
  ∧ (∃ msg, (list_users demo_env grace_state).1 = Raise (Exception msg))
  ∧ http_status (list_users demo_env grace_state).1 = 500
  ∧ (∃ msg, (list_users demo_env foreign_state).1 = Raise (Exception msg))
  ∧ http_status (list_users demo_env foreign_state).1 = 500.
Proof.
  split_and!.
  - eexists (mkCollection (mkVectorParams 768 COSINE)
               (<["00000000-0000-4000-8000-0" :=
                    mkStoredPoint demo_vector (User_dict grace)]> ∅)).
    split; [vm_compute; reflexivity|].
    cbn [points]. by rewrite insert_empty, map_size_singleton.
  - eexists. vm_compute. reflexivity.
  - vm_compute. reflexivity.
  - eexists. vm_compute. reflexivity.
  - vm_compute. reflexivity.
Qed.

(** C7, amended: on a store that holds the collection, with [N] points.
    When the store answers and every stored payload validates as a User (as
    the payload [user.dict()] of a user with an age does, to that user),
    [list_users] returns one entry (id and user, no score) per stored point,
    each point at most once: all the [N] points when [N] is at most 100,
    exactly 100 entries when [N] is more, and the empty list when the
    collection is empty.  It fails, with a 500 for the client, when the
    call to the store fails, and, [N] being at most 100, when a stored
    payload does not validate. *)
Theorem list_users_capped (E : Env) (s : State) (c : Collection) :
  s.(collections) !! COLLECTION_NAME = Some c →
  (∀ msg, qdrant_fault E s.(qdrant_calls) = Some msg →
     list_users E s
     = (Raise (Exception msg), set_qdrant_calls (S s.(qdrant_calls)) s)
     ∧ http_status (list_users E s).1 = 500)
  ∧ (qdrant_fault E s.(qdrant_calls) = None →
     map_Forall (λ _ p, ∃ u, User_of_dict E p.(payload) = Ok u) c.(points) →
     ∃ l,
       list_users E s = (Ok l, set_qdrant_calls (S s.(qdrant_calls)) s)
       ∧ http_status (list_users E s).1 = 200
       ∧ (size c.(points) ≤ 100 → length l = size c.(points))%nat
       ∧ (100 < size c.(points) → length l = 100)%nat
       ∧ (c.(points) = ∅ → l = [])
       ∧ NoDup (id <$> l)
       ∧ ∀ r, r ∈ l →
           r.(similarity_score) = None
           ∧ ∃ p, c.(points) !! r.(id) = Some p
                  ∧ User_of_dict E p.(payload) = Ok r.(user)
                  ∧ ∀ u, p.(payload) = User_dict u → u.(age) ≠ None →
                         r.(user) = u)
  ∧ (qdrant_fault E s.(qdrant_calls) = None →
     (size c.(points) ≤ 100)%nat →
     ∀ i p e, c.(points) !! i = Some p → User_of_dict E p.(payload) = Raise e →
              (∃ msg, (list_users E s).1 = Raise (Exception msg))
              ∧ http_status (list_users E s).1 = 500).
Proof.
  intros Hc. split_and!.
  { intros msg Hdown. unfold list_users, bind, scroll, qdrant_call.
    by rewrite Hdown. }
  2:{ intros Hup Hsize i p e. by apply list_users_invalid. }
  intros Hup Husers.
  destruct (records_of_points c.(points)) as (Hlen & Hnodup & Hstored).
  set (all := (λ ip, mkPointRecord ip.1 ip.2.(payload))
                <$> map_to_list c.(points)) in *.
  assert (Hvalid : Forall (λ r, ∃ u, User_of_dict E r.(rec_payload) = Ok u)
                     (take 100 all)).
  { apply Forall_take, Forall_forall. intros r Hr.
    destruct (Hstored r Hr) as (p & Hp & ->). exact (Husers _ _ Hp). }
  destruct (for_each_validate E _ (set_qdrant_calls (S s.(qdrant_calls)) s) Hvalid)
    as (l & Hrun & Hall).
  assert (Hlist : list_users E s = (Ok l, set_qdrant_calls (S s.(qdrant_calls)) s)).
  { rewrite (list_users_run E s c Hup Hc). exact Hrun. }
  assert (Hl : length l = (size c.(points) `min` 100)%nat).
  { rewrite <- (Forall2_length _ _ _ Hall), length_take, Hlen. lia. }
  assert (Hids : id <$> l = rec_id <$> take 100 all).
  { clear -Hall. induction Hall as [|r o ?? (Hid & _) _ IH]; [done|].
    cbn. by rewrite Hid, IH. }
  exists l. split_and!.
  - exact Hlist.
  - by rewrite Hlist.
  - lia.
  - lia.
  - intros Hempty. rewrite Hempty, map_size_empty in Hl.
    by apply length_zero_iff_nil.
  - rewrite Hids, fmap_take.
    eapply sublist_NoDup; [exact Hnodup|apply sublist_take].
  - intros o Ho.
    apply list_elem_of_lookup in Ho as [k Hk].
    destruct (Forall2_lookup_r _ _ _ _ _ Hall Hk) as (r & Hr & Hid & Hu & Hsc).
    split; [done|].
    assert (Hin : r ∈ all).
    { apply list_elem_of_lookup_2 in Hr.
      apply elem_of_take in Hr as (k' & Hk' & _).
      by eapply list_elem_of_lookup_2. }
    destruct (Hstored r Hin) as (p & Hp & Hpay).
    rewrite Hpay in Hu.
    exists p. rewrite Hid. split_and!; [done..|].
    intros u Hdict Hage.
    rewrite Hdict, User_of_dict_User_dict in Hu by done. congruence.
Qed.

Lemma list_users_capped_witness :
  ∃ l, (list_users demo_env
          (create_user demo_env ada
             (create_user demo_env ada started_state).2).2).1 = Ok l
       ∧ length l = 2%nat.
Proof.
  destruct (list_users_capped demo_env
              (create_user demo_env ada
                 (create_user demo_env ada started_state).2).2
              (mkCollection (mkVectorParams 768 COSINE)
                 (<["00000000-0000-4000-8000-1" :=
                      mkStoredPoint demo_vector (User_dict ada)]>
                    (<["00000000-0000-4000-8000-0" :=
                         mkStoredPoint demo_vector (User_dict ada)]> ∅))))
    as (_ & Hok & _).
  - vm_compute. reflexivity.
  - destruct Hok as (l & Hrun & _ & Hlen & _).
    + reflexivity.
    + cbn [points].
      apply map_Forall_insert_2;
        [exists ada; by apply User_of_dict_User_dict|].
      apply map_Forall_insert_2;
        [exists ada; by apply User_of_dict_User_dict|].
      apply map_Forall_empty.
    + exists l. rewrite Hrun. split; [reflexivity|].
      rewrite Hlen; [vm_compute; reflexivity|]. vm_compute. lia.
Defined.

(** ** Collection setup *)

(** The test [any(collection.name == COLLECTION_NAME ...)] on the listing. *)
Lemma collection_exists_lookup (cs : gmap string Collection) :
  existsb (λ n, bool_decide (n = COLLECTION_NAME)) (fst <$> map_to_list cs)
  = bool_decide (is_Some (cs !! COLLECTION_NAME)).
Proof.
  apply eq_true_iff_eq. rewrite existsb_exists, bool_decide_eq_true. split.
  - intros (n & Hin & Hn). apply bool_decide_eq_true in Hn as ->.
    apply list_elem_of_In, list_elem_of_fmap in Hin as ([n c] & Hn & Hin).
    cbn in Hn. subst n. apply elem_of_map_to_list in Hin. eauto.
  - intros [c Hc]. exists COLLECTION_NAME. split; [|by apply bool_decide_eq_true].
    apply list_elem_of_In, list_elem_of_fmap. exists (COLLECTION_NAME, c).
    split; [done|]. by apply elem_of_map_to_list.
Qed.

(** C9: the setup lists the collections of the store.  If the listing
    fails, the error is printed and raised again, and nothing is created.
    If the collection [users1] is there, it is left as it is: the listing is
    the only call made.  If it is not there, it is created empty, with
    vectors of size 768 and the cosine distance; an error of that call is
    printed and raised again.  The setup never swallows an error: it ends
    with the exception of the failed call. *)
Theorem startup_collection_setup (E : Env) (s : State) :
  let n := s.(qdrant_calls) in
  let failed msg k :=
    (Raise (Exception msg),
     set_stdout (s.(stdout) ++ ["Error during collection setup: " +:+ msg])
       (set_qdrant_calls k s)) in
  (∀ msg, qdrant_fault E n = Some msg → startup E s = failed msg (S n))
  ∧ (∀ c, qdrant_fault E n = None →
          s.(collections) !! COLLECTION_NAME = Some c →
          startup E s
          = (Ok tt,
             set_stdout (s.(stdout) ++ ["Collection users1 already exists"])
               (set_qdrant_calls (S n) s)))
  ∧ (∀ msg, qdrant_fault E n = None →
            s.(collections) !! COLLECTION_NAME = None →
            qdrant_fault E (S n) = Some msg →
            startup E s = failed msg (S (S n)))
  ∧ (qdrant_fault E n = None →
     s.(collections) !! COLLECTION_NAME = None →
     qdrant_fault E (S n) = None →
     startup E s
     = (Ok tt,
        set_stdout (s.(stdout) ++ ["Created new collection: users1"])
          (set_collections
             (<[COLLECTION_NAME := mkCollection (mkVectorParams 768 COSINE) ∅]>
                s.(collections))
             (set_qdrant_calls (S (S n)) s)))).
Proof.
  intros n failed. subst n failed. destruct s as [cs qc rs uc out].
  cbn [qdrant_calls collections stdout].
  unfold startup, try_except, get_collections.
  split_and!.
  - intros msg Hdown. unfold bind at 1, qdrant_call.
    cbn [qdrant_calls]. by rewrite Hdown.
  - intros c Hup Hc. unfold bind at 1, qdrant_call.
    cbn [qdrant_calls collections]. rewrite Hup, collection_exists_lookup.
    rewrite bool_decide_eq_true_2 by eauto. reflexivity.
  - intros msg Hup Hc Hdown. unfold bind at 1, qdrant_call.
    cbn [qdrant_calls collections]. rewrite Hup, collection_exists_lookup.
    rewrite bool_decide_eq_false_2 by (rewrite Hc; by intros [? ?]).
    cbn [negb]. unfold bind, create_collection, qdrant_call.
    cbn [qdrant_calls collections set_qdrant_calls set_collections].
    by rewrite Hdown.
  - intros Hup Hc Hup'. unfold bind at 1, qdrant_call.
    cbn [qdrant_calls collections]. rewrite Hup, collection_exists_lookup.
    rewrite bool_decide_eq_false_2 by (rewrite Hc; by intros [? ?]).
    cbn [negb]. unfold bind, create_collection, qdrant_call.
    cbn [qdrant_calls collections set_qdrant_calls set_collections].
    by rewrite Hup', Hc.
Qed.

Example startup_creates_once :
  (startup demo_env boot_state).1 = Ok tt
  ∧ (startup demo_env boot_state).2.(collections)
    = {[ "users1" := mkCollection (mkVectorParams 768 COSINE) ∅ ]}
  ∧ (startup demo_env started_state).2.(collections) = started_state.(collections)
  ∧ (startup demo_env started_state).2.(stdout)
    = ["Created new collection: users1"; "Collection users1 already exists"].
Proof. split_and!; vm_compute; reflexivity. Qed.

Example startup_store_down :
  startup (mkEnv (λ _, None) (λ _ _, TransportError "") (λ _, "")
                 (λ _, Some "Connection refused") (λ _ _, 0%Q) (λ _, None))
    boot_state
  = (Raise (Exception "Connection refused"),
     mkState ∅ 1 [] 0 ["Error during collection setup: Connection refused"]).
Proof. reflexivity. Qed.

(** * Further properties of the code *)

(** ** The text and the payload of a user *)

Lemma string_append_assoc (a b c : string) : (a +:+ b) +:+ c = a +:+ b +:+ c.
Proof.
  induction a as [|x a IH]; [reflexivity|].
  change (String x ((a +:+ b) +:+ c) = String x (a +:+ b +:+ c)).
  by rewrite IH.
Qed.

Lemma str_join_merge sep x y l :
  str_join sep ((x +:+ sep +:+ y) :: l) = str_join sep (x :: y :: l).
Proof.
  destruct l as [|z l]; [reflexivity|].
  change (str_join sep ((x +:+ sep +:+ y) :: z :: l))
    with ((x +:+ sep +:+ y) +:+ sep +:+ str_join sep (z :: l)).
  change (str_join sep (x :: y :: z :: l))
    with (x +:+ sep +:+ y +:+ sep +:+ str_join sep (z :: l)).
  by rewrite !string_append_assoc.
Qed.

(** X1: [user_to_text] loses the boundaries of the interests: a user with
    the two interests [x] and [y] and the different user with the single
    interest [x, y] have the same text, and so the same embedding request. *)
Theorem user_to_text_merges_interests (E : Env) (n b x y : string)
    (l : list string) (loc : string) (a : option Z) :
  mkUser n b (x :: y :: l) loc a ≠ mkUser n b ((x +:+ ", " +:+ y) :: l) loc a
  ∧ user_to_text (mkUser n b (x :: y :: l) loc a)
    = user_to_text (mkUser n b ((x +:+ ", " +:+ y) :: l) loc a)
  ∧ get_embedding E (user_to_text (mkUser n b (x :: y :: l) loc a))
    = get_embedding E (user_to_text (mkUser n b ((x +:+ ", " +:+ y) :: l) loc a)).
Proof.
  assert (Htext : user_to_text (mkUser n b (x :: y :: l) loc a)
                  = user_to_text (mkUser n b ((x +:+ ", " +:+ y) :: l) loc a)).
  { unfold user_to_text. cbn [interests name bio location age].
    by rewrite str_join_merge. }
  split_and!.
  - intros Heq. apply (f_equal (λ u, length u.(interests))) in Heq.
    cbn in Heq. lia.
  - exact Htext.
  - by rewrite Htext.
Qed.

Lemma dict_get_app_l k d extra v :
  dict_get k d = Some v → dict_get k (d ++ extra) = Some v.
Proof.
  induction d as [|[k' v'] d IH]; [discriminate|].
  cbn. destruct (String.eqb k k'); [done|exact IH].
Qed.

(** X2: the payload [user.dict()] builds for a user with an age validates
    back to the same user, whatever further entries follow its five; the
    payload it builds for a user without an age does not validate: its
    [age] is an explicit null, which the integer field refuses. *)
Theorem User_dict_validates (E : Env) (u : User) (extra : list (string * value)) :
  (u.(age) ≠ None → User_of_dict E (User_dict u ++ extra) = Ok u)
  ∧ (u.(age) = None →
     ∃ msg, User_of_dict E (User_dict u ++ extra) = Raise (Exception msg)).
Proof.
  assert (Hsame : User_of_dict E (User_dict u ++ extra)
                  = User_of_dict E (User_dict u)).
  { destruct u as [n b i l a]. unfold User_of_dict.
    rewrite (dict_get_app_l "name" _ extra (VStr n)) by reflexivity.
    rewrite (dict_get_app_l "bio" _ extra (VStr b)) by reflexivity.
    rewrite (dict_get_app_l "interests" _ extra (VList (VStr <$> i)))
      by reflexivity.
    rewrite (dict_get_app_l "location" _ extra (VStr l)) by reflexivity.
    rewrite (dict_get_app_l "age" _ extra
               (match a with Some z => VInt z | None => VNone end))
      by reflexivity.
    reflexivity. }
  rewrite Hsame. split.
  - apply User_of_dict_User_dict.
  - intros Hage. rewrite (User_of_dict_ageless E u Hage). eauto.
Qed.

(** ** More on the embedding client *)

Lemma models_to_try_lookup i m :
  models_to_try !! i = Some m → i = 0%nat ∧ m = "nomic-embed-text".
Proof. destruct i as [|[|i]]; cbn; [|done..]. by intros [= <-]. Qed.

(** X3: whatever its outcome, a call of [get_embedding] sends exactly one
    request (there is no retry): to port 11434 of the host named by
    [OLLAMA_HOST], or of [localhost] when the variable is not set, for the
    model [nomic-embed-text], with the text as prompt and a timeout of 30.
    It makes no call to the vector store and draws no UUID. *)
Theorem get_embedding_one_request (E : Env) (text : string) (s : State) :
  let s' := (get_embedding E text s).2 in
  s'.(requests)
  = (s.(requests)
     ++ [mkRequest ("http://" +:+ default "localhost" (environ E "OLLAMA_HOST")
                    +:+ ":11434/api/embeddings")
                   30 "nomic-embed-text" text])%list
  ∧ s'.(collections) = s.(collections)
  ∧ s'.(qdrant_calls) = s.(qdrant_calls)
  ∧ s'.(uuid_calls) = s.(uuid_calls).
Proof.
  cbv zeta.
  destruct (get_embedding E text s) as [r s'] eqn:Hrun. cbn [snd].
  split; [|exact (get_embedding_frame _ _ _ _ _ Hrun)].
  destruct (get_embedding_cases E text s)
    as [(i & m & v & out & Hm & _ & _ & Hok)|[_ [out Hko]]].
  - apply models_to_try_lookup in Hm as [-> ->].
    rewrite Hok in Hrun. injection Hrun as _ <-. by destruct s.
  - rewrite Hko in Hrun. injection Hrun as _ <-. by destruct s.
Qed.

(** X4: what [get_embedding] prints.  On a usable reply it prints nothing
    and returns the embedding.  Otherwise it raises the 500 after one line:
    the status when it is not 200, [returned null embeddings] when the
    document is an object whose embedding is null or missing, and the text
    of the exception when the transport raised, when the body is not JSON,
    or when the document is not an object. *)
Theorem get_embedding_diagnostics (E : Env) (text : string) (s : State) :
  let request :=
    mkRequest ("http://" +:+ os_environ_get E "OLLAMA_HOST" "localhost"
               +:+ ":11434/api/embeddings") 30 "nomic-embed-text" text in
  let reply := ollama E (length s.(requests)) request in
  let after lines :=
    set_stdout (s.(stdout) ++ lines) (set_requests (s.(requests) ++ [request]) s) in
  let fails line := get_embedding E text s = (Raise all_failed, after [line]) in
  (∀ msg, reply = TransportError msg →
          fails ("Error with model nomic-embed-text: " +:+ msg))
  ∧ (∀ st b, reply = Replied (mkResponse st b) → st ≠ 200 →
             fails ("Model nomic-embed-text failed with status " +:+ str_int st))
  ∧ (∀ msg, reply = Replied (mkResponse 200 (NotJson msg)) →
            fails ("Error with model nomic-embed-text: " +:+ msg))
  ∧ (∀ v, reply = Replied (mkResponse 200 (Json v)) → (∀ d, v ≠ VDict d) →
          fails ("Error with model nomic-embed-text: '" +:+ type_name v
                 +:+ "' object has no attribute 'get'"))
  ∧ (∀ d, reply = Replied (mkResponse 200 (Json (VDict d))) →
          dict_get "embedding" d = None ∨ dict_get "embedding" d = Some VNone →
          fails "Model nomic-embed-text returned null embeddings")
  ∧ (∀ d v, reply = Replied (mkResponse 200 (Json (VDict d))) →
            dict_get "embedding" d = Some v → v ≠ VNone →
            get_embedding E text s = (Ok v, after [])).
Proof.
  intros request reply after fails. subst fails after.
  unfold get_embedding, models_to_try, embedding_loop, try_model, try_except,
    bind, client_post.
  fold request. fold reply. destruct s as [cs qc rs uc out].
  cbn [requests stdout set_requests set_stdout collections qdrant_calls uuid_calls].
  split_and!.
  - intros msg ->. reflexivity.
  - intros st b -> Hst. cbn.
    destruct (Z.eqb_spec st 200) as [?|_]; [done|]. reflexivity.
  - intros msg ->. reflexivity.
  - intros v -> Hv. destruct v; try reflexivity. by destruct (Hv d).
  - intros d -> [Hd|Hd]; cbn; rewrite Hd; reflexivity.
  - intros d v -> Hd Hv. cbn. rewrite Hd. cbn.
    destruct v; try done; cbn; by rewrite app_nil_r.
Qed.

(** ** When the store fails, and what the handlers leave alone *)

(** X5: [get_user] and [list_users] do not catch the errors of the vector
    store: when the store cannot be reached, both end with the exception of
    the call, which is a 500 for the client; [get_user] does not answer 404
    then. *)
Theorem read_handlers_store_down (E : Env) (user_id : string) (s : State)
    (msg : string) :
  qdrant_fault E s.(qdrant_calls) = Some msg →
  get_user E user_id s
  = (Raise (Exception msg), set_qdrant_calls (S s.(qdrant_calls)) s)
  ∧ http_status (get_user E user_id s).1 = 500
  ∧ list_users E s
    = (Raise (Exception msg), set_qdrant_calls (S s.(qdrant_calls)) s)
  ∧ http_status (list_users E s).1 = 500.
Proof.
  intros Hdown.
  unfold get_user, list_users, bind, retrieve, scroll, qdrant_call.
  rewrite Hdown. cbn. done.
Qed.

Lemma read_handlers_store_down_witness :
  http_status (get_user store_down_env "00000000-0000-4000-8000-0" boot_state).1
  = 500.
Proof.
  apply (read_handlers_store_down store_down_env "00000000-0000-4000-8000-0"
           boot_state "[Errno 111] Connection refused").
  reflexivity.
Defined.

(** X6: when the embedding is obtained and the store then cannot be reached,
    [create_user] and [find_similar_user] end with the exception of the
    call (a 500); nothing is written, although [create_user] has drawn its
    UUID by then. *)
Theorem write_handlers_store_down (E : Env) (u : User) (s s0 : State)
    (embedding : value) (msg : string) :
  get_embedding E (user_to_text u) s = (Ok embedding, s0) →
  qdrant_fault E s.(qdrant_calls) = Some msg →
  create_user E u s
  = (Raise (Exception msg),
     set_qdrant_calls (S s.(qdrant_calls)) (set_uuid_calls (S s.(uuid_calls)) s0))
  ∧ http_status (create_user E u s).1 = 500
  ∧ (create_user E u s).2.(collections) = s.(collections)
  ∧ find_similar_user E u s
    = (Raise (Exception msg), set_qdrant_calls (S s.(qdrant_calls)) s0)
  ∧ http_status (find_similar_user E u s).1 = 500
  ∧ (find_similar_user E u s).2.(collections) = s.(collections).
Proof.
  intros Hemb Hdown.
  destruct (get_embedding_frame _ _ _ _ _ Hemb) as (Hc & Hq & Hu).
  assert (Hcreate : create_user E u s
            = (Raise (Exception msg),
               set_qdrant_calls (S s.(qdrant_calls))
                 (set_uuid_calls (S s.(uuid_calls)) s0))).
  { unfold create_user, bind at 1. rewrite Hemb.
    unfold bind, uuid4_str, upsert, qdrant_call.
    cbn [qdrant_calls set_uuid_calls]. rewrite Hq, Hu, Hdown. reflexivity. }
  assert (Hfind : find_similar_user E u s
            = (Raise (Exception msg), set_qdrant_calls (S s.(qdrant_calls)) s0)).
  { unfold find_similar_user, bind at 1. rewrite Hemb.
    unfold bind, search, qdrant_call. rewrite Hq, Hdown. reflexivity. }
  rewrite Hcreate, Hfind. cbn. done.
Qed.

Lemma write_handlers_store_down_witness :
  http_status (create_user store_down_env ada boot_state).1 = 500
  ∧ http_status (find_similar_user store_down_env ada boot_state).1 = 500.
Proof.
  edestruct (write_handlers_store_down store_down_env ada boot_state)
    as (_ & Hc & _ & _ & Hf & _).
  - vm_compute. reflexivity.
  - reflexivity.
  - exact (conj Hc Hf).
Defined.

(** The comprehension of [list_users] changes nothing. *)
Lemma for_each_validate_state (E : Env) (l : list PointRecord) (s : State) :
  (for_each (λ point, u <- lift (User_of_dict E point.(rec_payload)) ;;
                      ret (mkUserResponse point.(rec_id) u None)) l s).2 = s.
Proof.
  induction l as [|r l IH]; [reflexivity|].
  cbn [for_each]. unfold bind at 1. unfold bind at 1. unfold lift at 1.
  destruct (User_of_dict E (rec_payload r)); [|reflexivity].
  unfold ret at 1. unfold bind at 1.
  destruct (for_each _ l s) as [[out|e] s'] eqn:Hrun; cbn in IH; by subst.
Qed.

(** The three handlers that read leave the store, the UUID generator and,
    for two of them, the embedding endpoint alone. *)
Lemma read_handlers_frame (E : Env) (u : User) (user_id : string) (s : State) :
  ((get_user E user_id s).2.(collections) = s.(collections)
   ∧ (get_user E user_id s).2.(uuid_calls) = s.(uuid_calls)
   ∧ (get_user E user_id s).2.(requests) = s.(requests))
  ∧ ((list_users E s).2.(collections) = s.(collections)
     ∧ (list_users E s).2.(uuid_calls) = s.(uuid_calls)
     ∧ (list_users E s).2.(requests) = s.(requests))
  ∧ ((find_similar_user E u s).2.(collections) = s.(collections)
     ∧ (find_similar_user E u s).2.(uuid_calls) = s.(uuid_calls)).
Proof.
  split_and!.
  1-3: unfold get_user, bind, retrieve, qdrant_call;
       destruct (qdrant_fault E _); [by destruct s|];
       destruct (collections s !! COLLECTION_NAME) as [c|]; [|by destruct s];
       cbn [omap list_omap];
       destruct (points c !! user_id) as [p|]; cbn; [|by destruct s];
       unfold lift; destruct (User_of_dict E (payload p)); by destruct s.
  1-3: unfold list_users, bind at 1, scroll, qdrant_call;
       destruct (qdrant_fault E _); [by destruct s|];
       destruct (collections s !! COLLECTION_NAME) as [c|]; [|by destruct s];
       cbn [fst]; rewrite for_each_validate_state; by destruct s.
  1-2: unfold find_similar_user, bind at 1;
       destruct (get_embedding E (user_to_text u) s) as [[emb|e] s0] eqn:Hemb;
       destruct (get_embedding_frame _ _ _ _ _ Hemb) as (Hc & Hq & Hu);
       [|done];
       unfold bind, search, qdrant_call;
       destruct (qdrant_fault E _); [by destruct s0|];
       destruct (collections s0 !! COLLECTION_NAME) as [c|]; [|by destruct s0];
       destruct (is_vector _ _); [|by destruct s0];
       destruct (take _ _) as [|top rest]; [by destruct s0|];
       unfold lift; destruct (User_of_dict E _); by destruct s0.
Qed.

(** X7: [get_user], [list_users] and [find_similar_user] never write:
    whatever they return or raise, the collections of the store are as
    before and no UUID is drawn; [get_user] and [list_users] send nothing
    to the embedding endpoint either. *)
Theorem read_handlers_never_write (E : Env) (u : User) (user_id : string)
    (s : State) :
  ((get_user E user_id s).2.(collections) = s.(collections)
   ∧ (get_user E user_id s).2.(uuid_calls) = s.(uuid_calls)
   ∧ (get_user E user_id s).2.(requests) = s.(requests))
  ∧ ((list_users E s).2.(collections) = s.(collections)
     ∧ (list_users E s).2.(uuid_calls) = s.(uuid_calls)
     ∧ (list_users E s).2.(requests) = s.(requests))
  ∧ ((find_similar_user E u s).2.(collections) = s.(collections)
     ∧ (find_similar_user E u s).2.(uuid_calls) = s.(uuid_calls)).
Proof. exact (read_handlers_frame E u user_id s). Qed.

(** ** Payloads that are not a user's *)

(** X8: a stored point whose payload is not a user's makes [get_user] on its
    id end with the validation error, a 500 for the client, not with a 404. *)
Theorem get_user_invalid_payload (E : Env) (user_id : string) (s : State)
    (c : Collection) (p : StoredPoint) (e : exn) :
  qdrant_fault E s.(qdrant_calls) = None →
  s.(collections) !! COLLECTION_NAME = Some c →
  c.(points) !! user_id = Some p →
  User_of_dict E p.(payload) = Raise e →
  get_user E user_id s = (Raise e, set_qdrant_calls (S s.(qdrant_calls)) s)
  ∧ http_status (get_user E user_id s).1 = 500.
Proof.
  intros Hup Hc Hp He.
  rewrite (get_user_run E user_id s c Hup Hc), Hp, He.
  apply User_of_dict_raises in He as ->. done.
Qed.

Lemma get_user_invalid_payload_witness :
  http_status (get_user demo_env "7" foreign_state).1 = 500.
Proof.
  eapply (get_user_invalid_payload demo_env "7" foreign_state
            (mkCollection (mkVectorParams 768 COSINE)
               {[ "7" := mkStoredPoint demo_vector [("title", VStr "a document")] ]})
            (mkStoredPoint demo_vector [("title", VStr "a document")])).
  - reflexivity.
  - reflexivity.
  - reflexivity.
  - reflexivity.
Defined.

(** X9: [list_users] is all or nothing: with at most 100 points in the
    collection, one stored payload that is not a user's makes the whole
    listing end with the validation error, a 500 for the client. *)
Theorem list_users_all_or_nothing (E : Env) (s : State) (c : Collection)
    (i : string) (p : StoredPoint) (e : exn) :
  qdrant_fault E s.(qdrant_calls) = None →
  s.(collections) !! COLLECTION_NAME = Some c →
  (size c.(points) ≤ 100)%nat →
  c.(points) !! i = Some p →
  User_of_dict E p.(payload) = Raise e →
  (∃ msg, (list_users E s).1 = Raise (Exception msg))
  ∧ http_status (list_users E s).1 = 500.
Proof. exact (list_users_invalid E s c i p e). Qed.

Lemma list_users_all_or_nothing_witness :
  http_status (list_users demo_env foreign_state).1 = 500.
Proof.
  eapply (list_users_all_or_nothing demo_env foreign_state
            (mkCollection (mkVectorParams 768 COSINE)
               {[ "7" := mkStoredPoint demo_vector [("title", VStr "a document")] ]})
            "7" (mkStoredPoint demo_vector [("title", VStr "a document")])).
  - reflexivity.
  - reflexivity.
  - vm_compute. lia.
  - reflexivity.
  - reflexivity.
Defined.

(** ** What creating a user changes *)

(** The collections after [create_user], whatever its outcome. *)
Lemma create_user_collections (E : Env) (u : User) (s : State) :
  (create_user E u s).2.(collections) = s.(collections)
  ∨ ∃ c embedding,
      s.(collections) !! COLLECTION_NAME = Some c
      ∧ (create_user E u s).2.(collections)
        = <[COLLECTION_NAME :=
              mkCollection c.(config)
                (<[uuid4 E s.(uuid_calls) :=
                     mkStoredPoint embedding (User_dict u)]> c.(points))]>
            s.(collections).
Proof.
  destruct (create_user E u s) as [[r|e] s1] eqn:Hrun.
  - destruct (create_user_inv _ _ _ _ _ Hrun)
      as (embedding & s0 & c & _ & _ & Hc & Hs1 & _).
    right. by exists c, embedding.
  - left. revert Hrun. unfold create_user, bind at 1.
    destruct (get_embedding E (user_to_text u) s) as [[embedding|e'] s0] eqn:Hemb;
      destruct (get_embedding_frame _ _ _ _ _ Hemb) as (Hc & _ & _).
    2:{ by intros [= _ <-]. }
    unfold bind, uuid4_str, upsert, qdrant_call.
    cbn [qdrant_calls collections set_uuid_calls set_qdrant_calls].
    destruct (qdrant_fault E (qdrant_calls s0)).
    { intros [= _ <-]. by destruct s0. }
    destruct (collections s0 !! COLLECTION_NAME) as [c|].
    2:{ intros [= _ <-]. by destruct s0. }
    destruct (forallb _ _); [discriminate|].
    intros [= _ <-]. by destruct s0.
Qed.

(** X10: a successful [create_user] answers with the user as given and no
    score, keeps the vector returned by the embedding client under the new
    id, and changes nothing else: the other collections, the parameters of
    its collection and every other point are as before.  The collection
    grows by one point, unless the id was already there: then the point is
    replaced and the size stays. *)
Theorem create_user_touches_one_point (E : Env) (u : User) (s s1 : State)
    (r : UserResponse) (c : Collection) :
  create_user E u s = (Ok r, s1) →
  s.(collections) !! COLLECTION_NAME = Some c →
  r.(user) = u
  ∧ r.(similarity_score) = None
  ∧ (∀ other, other ≠ COLLECTION_NAME →
              s1.(collections) !! other = s.(collections) !! other)
  ∧ ∃ c1 p s0,
      s1.(collections) !! COLLECTION_NAME = Some c1
      ∧ c1.(config) = c.(config)
      ∧ c1.(points) !! r.(id) = Some p
      ∧ p.(payload) = User_dict u
      ∧ get_embedding E (user_to_text u) s = (Ok p.(vector), s0)
      ∧ (∀ j, j ≠ r.(id) → c1.(points) !! j = c.(points) !! j)
      ∧ (c.(points) !! r.(id) = None → size c1.(points) = S (size c.(points)))
      ∧ (is_Some (c.(points) !! r.(id)) → size c1.(points) = size c.(points)).
Proof.
  intros Hrun Hc.
  destruct (create_user_inv _ _ _ _ _ Hrun)
    as (embedding & s0 & c' & Hemb & -> & Hc' & Hs1 & _).
  assert (c' = c) as -> by congruence. cbn [user similarity_score id].
  split_and!; [done..| |].
  - intros other Hother. rewrite Hs1. by apply lookup_insert_ne.
  - eexists _, (mkStoredPoint embedding (User_dict u)), s0.
    split; [rewrite Hs1; apply lookup_insert_eq|].
    cbn [config points payload vector]. split_and!; [done| |done| | | |].
    + apply lookup_insert_eq.
    + exact Hemb.
    + intros j Hj. by apply lookup_insert_ne.
    + apply map_size_insert_None.
    + apply map_size_insert_Some.
Qed.

Lemma create_user_touches_one_point_witness :
  (create_user demo_env ada started_state).2.(collections) !! "other" = None.
Proof.
  destruct (create_user_touches_one_point demo_env ada started_state
              ada_state (mkUserResponse "00000000-0000-4000-8000-0" ada None)
              (mkCollection (mkVectorParams 768 COSINE) ∅))
    as (_ & _ & Hother & _).
  - vm_compute. reflexivity.
  - reflexivity.
  - unfold ada_state in Hother. rewrite Hother; [reflexivity|discriminate].
Defined.

(** The collections after [startup], whatever its outcome. *)
Lemma startup_collections (E : Env) (s : State) :
  (startup E s).2.(collections) = s.(collections)
  ∨ (s.(collections) !! COLLECTION_NAME = None
     ∧ (startup E s).1 = Ok tt
     ∧ (startup E s).2.(collections)
       = <[COLLECTION_NAME := mkCollection (mkVectorParams 768 COSINE) ∅]>
           s.(collections)).
Proof.
  destruct s as [cs qc rs uc out]. cbn [collections].
  remember (startup E (mkState cs qc rs uc out)) as run eqn:Hrun.
  revert Hrun.
  unfold startup, try_except, bind at 1, get_collections, qdrant_call.
  cbn [qdrant_calls collections].
  destruct (qdrant_fault E qc); [intros ->; by left|].
  rewrite collection_exists_lookup.
  destruct (cs !! COLLECTION_NAME) as [c|] eqn:Hc.
  { rewrite bool_decide_eq_true_2 by eauto. intros ->. by left. }
  rewrite bool_decide_eq_false_2 by (by intros [? ?]).
  cbn [negb]. unfold bind, create_collection, qdrant_call.
  cbn [qdrant_calls collections set_qdrant_calls set_collections].
  destruct (qdrant_fault E (S qc)); [intros ->; by left|].
  rewrite Hc. intros ->. right. split_and!; reflexivity.
Qed.

(** After a successful setup the collection is there; on a store that has
    it the setup changes nothing. *)
Lemma startup_keeps_fresh (E : Env) (s : State) :
  ((startup E s).1 = Ok tt →
   is_Some ((startup E s).2.(collections) !! COLLECTION_NAME))
  ∧ (is_Some (s.(collections) !! COLLECTION_NAME) →
     (startup E s).2.(collections) = s.(collections)).
Proof.
  destruct (startup_collections E s) as [Hsame|(Hnone & Hok & Hnew)].
  - split; [|done].
    intros Hok. rewrite Hsame.
    destruct (collections s !! COLLECTION_NAME) as [c|] eqn:Hc; [eauto|].
    exfalso. revert Hok Hsame.
    destruct s as [cs qc rs uc out]. cbn [collections] in *.
    remember (startup E (mkState cs qc rs uc out)) as run eqn:Hrun.
    revert Hrun.
    unfold startup, try_except, bind at 1, get_collections, qdrant_call.
    cbn [qdrant_calls collections].
    destruct (qdrant_fault E qc); [by intros ->|].
    rewrite collection_exists_lookup, Hc.
    rewrite bool_decide_eq_false_2 by (by intros [? ?]).
    cbn [negb]. unfold bind, create_collection, qdrant_call.
    cbn [qdrant_calls collections set_qdrant_calls set_collections].
    destruct (qdrant_fault E (S qc)); [by intros ->|].
    rewrite Hc. intros -> _ Heq. cbn in Heq.
    apply (f_equal (λ m, m !! COLLECTION_NAME)) in Heq.
    rewrite lookup_insert_eq, Hc in Heq. discriminate.
  - split.
    + intros _. rewrite Hnew, lookup_insert_eq. eauto.
    + intros [c Hc]. congruence.
Qed.

(** X11: the collection setup never drops or changes a collection that is
    there, whatever its outcome; when it raises, the collections are as
    before; when it succeeds, the collection [users1] is there afterwards;
    and on a store that has the collection it changes nothing at all, so
    that a restart keeps the stored users. *)
Theorem startup_keeps_collections (E : Env) (s : State) :
  (∀ cname c, s.(collections) !! cname = Some c →
              (startup E s).2.(collections) !! cname = Some c)
  ∧ (∀ e, (startup E s).1 = Raise e →
          (startup E s).2.(collections) = s.(collections))
  ∧ ((startup E s).1 = Ok tt →
     is_Some ((startup E s).2.(collections) !! COLLECTION_NAME))
  ∧ (is_Some (s.(collections) !! COLLECTION_NAME) →
     (startup E s).2.(collections) = s.(collections)).
Proof.
  destruct (startup_keeps_fresh E s) as [Hthere Hidem].
  destruct (startup_collections E s) as [Hsame|(Hnone & Hok & Hnew)].
  - split_and!; [|done..].
    intros cname c Hc. by rewrite Hsame.
  - split_and!; [| |done..].
    + intros cname c Hc. rewrite Hnew.
      rewrite lookup_insert_ne; [done|]. intros <-. congruence.
    + intros e He. congruence.
Qed.

(** X12: the setup and the handlers that read keep the collection of the
    service a collection of users: if every stored payload validates as a
    User before the call, so it does after it, whatever the outcome.  So
    does [create_user] on a user with an age.  On a user without an age it
    does not: when it succeeds, the payload it has stored does not
    validate.  (A store without the collection satisfies the invariant.) *)
Theorem handlers_keep_users_only (E : Env) (s : State) :
  users_only E s →
  users_only E (startup E s).2
  ∧ (∀ u, u.(age) ≠ None → users_only E (create_user E u s).2)
  ∧ (∀ u r s1, u.(age) = None → create_user E u s = (Ok r, s1) →
               ¬ users_only E s1)
  ∧ (∀ u, users_only E (find_similar_user E u s).2)
  ∧ (∀ user_id, users_only E (get_user E user_id s).2)
  ∧ users_only E (list_users E s).2.
Proof.
  intros Hs.
  assert (Hsame : ∀ s', s'.(collections) = s.(collections) → users_only E s').
  { intros s' Heq c. rewrite Heq. apply Hs. }
  split_and!.
  - destruct (startup_collections E s) as [Heq|(_ & _ & Hnew)]; [by apply Hsame|].
    intros c. rewrite Hnew, lookup_insert_eq. intros [= <-]. cbn [points].
    apply map_Forall_empty.
  - intros u Hage.
    destruct (create_user_collections E u s)
      as [Heq|(c & embedding & Hc & Hnew)]; [by apply Hsame|].
    intros c1. rewrite Hnew, lookup_insert_eq. intros [= <-]. cbn [points].
    apply map_Forall_insert_2; [|by apply Hs].
    exists u. by apply User_of_dict_User_dict.
  - intros u r s1 Hage Hrun Hs1.
    destruct (create_user_inv _ _ _ _ _ Hrun)
      as (embedding & s0 & c & _ & _ & _ & Hnew & _).
    specialize (Hs1 _ (eq_trans (f_equal (λ m, m !! COLLECTION_NAME) Hnew)
                         (lookup_insert_eq _ _ _))).
    cbn [points] in Hs1.
    destruct (Hs1 (uuid4 E (uuid_calls s))
                (mkStoredPoint embedding (User_dict u))) as [v Hv].
    { apply lookup_insert_eq. }
    cbn [payload] in Hv. by rewrite (User_of_dict_ageless E u Hage) in Hv.
  - intros u. apply Hsame, (read_handlers_frame E u "" s).
  - intros user_id. apply Hsame, (read_handlers_frame E ada user_id s).
  - apply Hsame, (read_handlers_frame E ada "" s).
Qed.

Lemma handlers_keep_users_only_witness :
  users_only demo_env ada_state ∧ ¬ users_only demo_env grace_state.
Proof.
  assert (Hstart : users_only demo_env started_state).
  { intros c Hc.
    assert (Hs : started_state.(collections) !! COLLECTION_NAME
                 = Some (mkCollection (mkVectorParams 768 COSINE) ∅))
      by reflexivity.
    rewrite Hs in Hc. injection Hc as <-. apply map_Forall_empty. }
  destruct (handlers_keep_users_only demo_env started_state Hstart)
    as (_ & Hada & Hgrace & _).
  split.
  - apply (Hada ada). discriminate.
  - apply (Hgrace grace (mkUserResponse "00000000-0000-4000-8000-0" grace None)).
    + reflexivity.
    + vm_compute. reflexivity.
Defined.

(** ** Creating, then listing and searching *)

(** Apart from the 404 on an empty result set, [find_similar_user] ends with
    a user, with the 500 of the embedding client, or with an exception that
    is not an [HTTPException]. *)
Lemma find_similar_user_404 (E : Env) (u : User) (s : State) :
  http_status (find_similar_user E u s).1 = 404 →
  ∃ embedding s0 c,
    get_embedding E (user_to_text u) s = (Ok embedding, s0)
    ∧ s.(collections) !! COLLECTION_NAME = Some c
    ∧ ranked E embedding c.(points) = [].
Proof.
  unfold find_similar_user, bind at 1.
  destruct (get_embedding E (user_to_text u) s) as [[embedding|e] s0] eqn:Hemb.
  2:{ destruct (get_embedding_cases E (user_to_text u) s)
        as [(? & ? & ? & ? & _ & _ & _ & Hok)|[_ [out Hko]]]; [congruence|].
      rewrite Hko in Hemb. injection Hemb as <- _. discriminate. }
  destruct (get_embedding_frame _ _ _ _ _ Hemb) as (Hc & _ & _).
  unfold bind, search, qdrant_call.
  destruct (qdrant_fault E _); [discriminate|].
  rewrite Hc.
  destruct (collections s !! COLLECTION_NAME) as [c|]; [|discriminate].
  destruct (is_vector _ _); [|discriminate].
  change (Z.to_nat 1) with 1%nat.
  destruct (ranked E embedding (points c)) as [|top rest] eqn:Hranked.
  { intros _. by exists embedding, s0, c. }
  cbn [take]. unfold lift.
  destruct (User_of_dict E (hit_payload top)) as [v|e] eqn:Hv; [discriminate|].
  apply User_of_dict_raises in Hv as ->. discriminate.
Qed.

(** X13: once [create_user] has succeeded, [find_similar_user] no longer
    answers 404, whatever user it is asked about and whatever the embedding
    endpoint and the store do then. *)
Theorem find_similar_after_create_not_404 (E : Env) (u query : User)
    (s s1 : State) (r : UserResponse) :
  create_user E u s = (Ok r, s1) →
  http_status (find_similar_user E query s1).1 ≠ 404.
Proof.
  intros Hrun H404.
  destruct (create_user_inv _ _ _ _ _ Hrun)
    as (embedding & s0 & c & _ & _ & _ & Hs1 & _).
  destruct (find_similar_user_404 E query s1 H404)
    as (q & s2 & c1 & _ & Hc1 & Hnil).
  rewrite Hs1, lookup_insert_eq in Hc1. injection Hc1 as <-.
  apply ranked_nil in Hnil. cbn [points] in Hnil.
  by apply insert_non_empty in Hnil.
Qed.

Lemma find_similar_after_create_not_404_witness :
  http_status (find_similar_user demo_env ada ada_state).1 ≠ 404.
Proof.
  apply (find_similar_after_create_not_404 demo_env ada ada started_state
           ada_state (mkUserResponse "00000000-0000-4000-8000-0" ada None)).
  vm_compute. reflexivity.
Defined.

(** The comprehension of [list_users], when it succeeds, has validated
    every record. *)
Lemma for_each_validate_inv (E : Env) (l : list PointRecord) (s : State)
    (out : list UserResponse) :
  (for_each (λ point, u <- lift (User_of_dict E point.(rec_payload)) ;;
                      ret (mkUserResponse point.(rec_id) u None)) l s).1
  = Ok out →
  Forall2 (λ r o, User_of_dict E r.(rec_payload) = Ok o.(user)
                  ∧ o = mkUserResponse r.(rec_id) o.(user) None) l out.
Proof.
  revert out. induction l as [|r l IH]; intros out.
  { cbn. intros [= <-]. constructor. }
  cbn [for_each]. unfold bind at 1. unfold bind at 1. unfold lift at 1.
  destruct (User_of_dict E (rec_payload r)) as [u|e] eqn:Hr; [|discriminate].
  unfold ret at 1. unfold bind at 1.
  destruct (for_each _ l s) as [[out'|e] s'] eqn:Hrun; [|discriminate].
  cbn. intros [= <-]. constructor; [by split|].
  apply IH. reflexivity.
Qed.

(** With at most 100 points, a successful listing has every stored point. *)
Lemma list_users_has (E : Env) (s : State) (c : Collection) (i : string)
    (p : StoredPoint) (u : User) (l : list UserResponse) :
  qdrant_fault E s.(qdrant_calls) = None →
  s.(collections) !! COLLECTION_NAME = Some c →
  (size c.(points) ≤ 100)%nat →
  c.(points) !! i = Some p →
  User_of_dict E p.(payload) = Ok u →
  (list_users E s).1 = Ok l →
  mkUserResponse i u None ∈ l.
Proof.
  intros Hup Hc Hsize Hp Hu.
  rewrite (list_users_run E s c Hup Hc).
  destruct (records_of_points c.(points)) as (Hlen & _ & _).
  rewrite take_ge by lia. intros Hall%for_each_validate_inv.
  assert (Hin : mkPointRecord i p.(payload)
                ∈ (λ ip, mkPointRecord ip.1 ip.2.(payload))
                    <$> map_to_list c.(points)).
  { apply list_elem_of_fmap. exists (i, p). split; [done|].
    by apply elem_of_map_to_list. }
  apply list_elem_of_lookup in Hin as [k Hk].
  destruct (Forall2_lookup_l _ _ _ _ _ Hall Hk) as (o & Ho & Hval & Heq).
  apply list_elem_of_lookup. exists k.
  cbn in Hval, Heq. rewrite Hu in Hval. injection Hval as Hval.
  by rewrite Ho, Heq, <- Hval.
Qed.

(** X14: with at most 100 points in the collection, a listing that succeeds
    is complete: every stored point is in it, with its id and the user its
    payload validates to. *)
Theorem list_users_complete (E : Env) (s : State) (c : Collection) (i : string)
    (p : StoredPoint) (u : User) (l : list UserResponse) :
  qdrant_fault E s.(qdrant_calls) = None →
  s.(collections) !! COLLECTION_NAME = Some c →
  (size c.(points) ≤ 100)%nat →
  c.(points) !! i = Some p →
  User_of_dict E p.(payload) = Ok u →
  (list_users E s).1 = Ok l →
  mkUserResponse i u None ∈ l.
Proof. exact (list_users_has E s c i p u l). Qed.

Lemma list_users_complete_witness :
  ∃ l, (list_users demo_env ada_state).1 = Ok l
       ∧ mkUserResponse "00000000-0000-4000-8000-0" ada None ∈ l.
Proof.
  eexists. split; [vm_compute; reflexivity|].
  apply (list_users_complete demo_env ada_state
           (mkCollection (mkVectorParams 768 COSINE)
              (<["00000000-0000-4000-8000-0" :=
                   mkStoredPoint demo_vector (User_dict ada)]> ∅))
           "00000000-0000-4000-8000-0"
           (mkStoredPoint demo_vector (User_dict ada)) ada).
  - reflexivity.
  - vm_compute. reflexivity.
  - vm_compute. lia.
  - apply lookup_insert_eq.
  - reflexivity.
  - vm_compute. reflexivity.
Defined.

(** X15: a user just created is in the next listing that succeeds, with the
    id [create_user] returned, as long as the collection then holds at most
    100 points. *)
Theorem create_then_list (E : Env) (u : User) (s s1 : State) (r : UserResponse)
    (c1 : Collection) (l : list UserResponse) :
  create_user E u s = (Ok r, s1) →
  qdrant_fault E s1.(qdrant_calls) = None →
  s1.(collections) !! COLLECTION_NAME = Some c1 →
  (size c1.(points) ≤ 100)%nat →
  (list_users E s1).1 = Ok l →
  r ∈ l.
Proof.
  intros Hrun Hup Hc1 Hsize Hl.
  destruct (create_user_inv _ _ _ _ _ Hrun)
    as (embedding & s0 & c & _ & -> & _ & Hs1 & _).
  assert (Hp : c1.(points) !! uuid4 E s.(uuid_calls)
               = Some (mkStoredPoint embedding (User_dict u))).
  { rewrite Hs1, lookup_insert_eq in Hc1. injection Hc1 as <-.
    cbn [points]. apply lookup_insert_eq. }
  destruct (age u) as [a|] eqn:Hage.
  - apply (list_users_has E s1 c1 _ (mkStoredPoint embedding (User_dict u)));
      [done..| |done].
    apply User_of_dict_User_dict. congruence.
  - destruct (list_users_invalid E s1 c1 _ _ _ Hup Hc1 Hsize Hp
                (User_of_dict_ageless E u Hage)) as [[msg Hmsg] _].
    congruence.
Qed.

Lemma create_then_list_witness :
  ∃ l, (list_users demo_env ada_state).1 = Ok l
       ∧ mkUserResponse "00000000-0000-4000-8000-0" ada None ∈ l.
Proof.
  eexists. split; [vm_compute; reflexivity|].
  apply (create_then_list demo_env ada started_state ada_state
           (mkUserResponse "00000000-0000-4000-8000-0" ada None)
           (mkCollection (mkVectorParams 768 COSINE)
              (<["00000000-0000-4000-8000-0" :=
                   mkStoredPoint demo_vector (User_dict ada)]> ∅))).
  - vm_compute. reflexivity.
  - reflexivity.
  - vm_compute. reflexivity.
  - vm_compute. lia.
  - vm_compute. reflexivity.
Defined.

(** The ranking of a collection of one point is that point. *)
Lemma ranked_singleton (E : Env) (query_vector : value) (i : string)
    (p : StoredPoint) :
  ranked E query_vector {[ i := p ]}
  = [mkScoredPoint i p.(payload) (similarity E query_vector p.(vector))].
Proof.
  pose proof (ranked_Permutation E query_vector {[ i := p ]}) as Hperm.
  rewrite map_to_list_singleton in Hperm. cbn in Hperm.
  by apply Permutation_singleton_r in Hperm.
Qed.

(** X16: when the collection was empty before a successful [create_user]
    on a user with an age, the next [find_similar_user], on any query whose
    embedding is obtained and is a vector of the collection, answers with
    the user just created, under the id [create_user] returned, and with the
    similarity of the two embeddings as score. *)
Theorem only_user_is_top_hit (E : Env) (u query : User) (s s0 s1 s2 : State)
    (r : UserResponse) (c : Collection) (stored asked : value) :
  u.(age) ≠ None →
  s.(collections) !! COLLECTION_NAME = Some c →
  c.(points) = ∅ →
  get_embedding E (user_to_text u) s = (Ok stored, s0) →
  create_user E u s = (Ok r, s1) →
  get_embedding E (user_to_text query) s1 = (Ok asked, s2) →
  is_vector c.(config).(vp_size) asked = true →
  qdrant_fault E s1.(qdrant_calls) = None →
  find_similar_user E query s1
  = (Ok (mkUserResponse r.(id) u (Some (similarity E asked stored))),
     set_qdrant_calls (S s1.(qdrant_calls)) s2).
Proof.
  intros Hage Hc Hempty Hstored Hrun Hasked Hvec Hup.
  destruct (create_user_inv _ _ _ _ _ Hrun)
    as (embedding & s0' & c' & Hemb & -> & Hc' & Hs1 & _).
  assert (c' = c) as -> by congruence.
  assert (embedding = stored) as -> by congruence.
  destruct (get_embedding_frame _ _ _ _ _ Hasked) as (Hcs & Hq & _).
  assert (Hlook : s2.(collections) !! COLLECTION_NAME
                  = Some (mkCollection c.(config)
                            {[ uuid4 E s.(uuid_calls)
                               := mkStoredPoint stored (User_dict u) ]})).
  { by rewrite Hcs, Hs1, lookup_insert_eq, Hempty, insert_empty. }
  unfold find_similar_user, bind at 1. rewrite Hasked.
  unfold bind at 1, search, qdrant_call.
  rewrite Hq, Hup, Hlook. cbn [config points].
  rewrite Hvec, ranked_singleton.
  change (Z.to_nat 1) with 1%nat.
  cbn [take hit_payload hit_id score payload vector].
  unfold bind, lift. rewrite User_of_dict_User_dict by done. cbn [id].
  unfold ret. f_equal; by destruct s2.
Qed.

Lemma only_user_is_top_hit_witness :
  (find_similar_user demo_env grace ada_state).1
  = Ok (mkUserResponse "00000000-0000-4000-8000-0" ada (Some 1%Q)).
Proof.
  erewrite (only_user_is_top_hit demo_env ada grace started_state _ ada_state _
              (mkUserResponse "00000000-0000-4000-8000-0" ada None)
              (mkCollection (mkVectorParams 768 COSINE) ∅)
              demo_vector demo_vector).
  - reflexivity.
  - discriminate.
  - reflexivity.
  - reflexivity.
  - vm_compute. reflexivity.
  - vm_compute. reflexivity.
  - vm_compute. reflexivity.
  - reflexivity.
  - reflexivity.
Defined.

(** ** A service just started, and users created beside others *)

(** X17: after a successful setup on a store that did not have the
    collection, the service is empty: as long as the store answers,
    [get_user] raises the 404 on every id and [list_users] returns the empty
    list. *)
Theorem fresh_service_is_empty (E : Env) (s s1 : State) (user_id : string) :
  s.(collections) !! COLLECTION_NAME = None →
  startup E s = (Ok tt, s1) →
  qdrant_fault E s1.(qdrant_calls) = None →
  get_user E user_id s1
  = (Raise (HTTPException 404 "User not found"),
     set_qdrant_calls (S s1.(qdrant_calls)) s1)
  ∧ list_users E s1 = (Ok [], set_qdrant_calls (S s1.(qdrant_calls)) s1).
Proof.
  intros Hnone Hrun Hup.
  assert (Hc1 : s1.(collections) !! COLLECTION_NAME
                = Some (mkCollection (mkVectorParams 768 COSINE) ∅)).
  { destruct (startup_collections E s) as [Hsame|(_ & _ & Hnew)];
      rewrite Hrun in *; cbn [fst snd] in *.
    - destruct (startup_keeps_fresh E s) as [Hsome _].
      rewrite Hrun in Hsome. cbn [fst snd] in Hsome.
      destruct (Hsome eq_refl) as [c Hc]. rewrite Hsame in Hc. congruence.
    - rewrite Hnew. apply lookup_insert_eq. }
  split.
  - rewrite (get_user_run E user_id s1 _ Hup Hc1). cbn [points].
    by rewrite lookup_empty.
  - rewrite (list_users_run E s1 _ Hup Hc1). cbn [points].
    by rewrite map_to_list_empty.
Qed.

Lemma fresh_service_is_empty_witness :
  (list_users demo_env started_state).1 = Ok []
  ∧ http_status (get_user demo_env "00000000-0000-4000-8000-0" started_state).1
    = 404.
Proof.
  destruct (fresh_service_is_empty demo_env boot_state started_state
              "00000000-0000-4000-8000-0") as [Hget Hlist].
  - reflexivity.
  - vm_compute. reflexivity.
  - reflexivity.
  - rewrite Hget, Hlist. split; reflexivity.
Defined.

(** X18: creating a user does not disturb the others: on any id other than
    the one it returned, [get_user] gives after the creation what it gave
    before it (the store answering both times). *)
Theorem create_keeps_other_users (E : Env) (u : User) (s s1 : State)
    (r : UserResponse) (user_id : string) :
  create_user E u s = (Ok r, s1) →
  user_id ≠ r.(id) →
  qdrant_fault E s.(qdrant_calls) = None →
  qdrant_fault E s1.(qdrant_calls) = None →
  (get_user E user_id s1).1 = (get_user E user_id s).1.
Proof.
  intros Hrun Hid Hup Hup1.
  destruct (create_user_inv _ _ _ _ _ Hrun)
    as (embedding & s0 & c & _ & -> & Hc & Hs1 & _).
  cbn [id] in Hid.
  rewrite (get_user_run E user_id s c Hup Hc).
  erewrite (get_user_run E user_id s1); [|exact Hup1|].
  2:{ rewrite Hs1. apply lookup_insert_eq. }
  cbn [fst points]. by rewrite lookup_insert_ne.
Qed.

Lemma create_keeps_other_users_witness :
  (get_user demo_env "00000000-0000-4000-8000-0"
     (create_user demo_env ada ada_state).2).1
  = Ok (mkUserResponse "00000000-0000-4000-8000-0" ada None).
Proof.
  rewrite (create_keeps_other_users demo_env ada ada_state
             (create_user demo_env ada ada_state).2
             (mkUserResponse "00000000-0000-4000-8000-1" ada None)
             "00000000-0000-4000-8000-0").
  - vm_compute. reflexivity.
  - vm_compute. reflexivity.
  - discriminate.
  - reflexivity.
  - reflexivity.
Defined.

(** X19: the round trip of a user with an age: when [create_user] succeeds
    on such a user and returns an id, and the store answers the next call,
    [get_user] on that id succeeds with the same id and with a user equal
    to the original one, field by field. *)
Theorem create_then_get_with_age (E : Env) (u : User) (s s1 : State)
    (r : UserResponse) :
  u.(age) ≠ None →
  create_user E u s = (Ok r, s1) →
  qdrant_fault E s1.(qdrant_calls) = None →
  ∃ r' s2,
    get_user E r.(id) s1 = (Ok r', s2)
    ∧ r'.(id) = r.(id)
    ∧ r'.(user) = u
    ∧ r'.(user).(name) = u.(name)
    ∧ r'.(user).(bio) = u.(bio)
    ∧ r'.(user).(interests) = u.(interests)
    ∧ r'.(user).(location) = u.(location)
    ∧ r'.(user).(age) = u.(age).
Proof.
  intros Hage Hcreate Hup.
  destruct (create_user_inv _ _ _ _ _ Hcreate)
    as (embedding & s0 & c & _ & -> & _ & Hs1 & _).
  eexists _, _. split.
  - erewrite get_user_run; [|done|].
    2:{ rewrite Hs1. apply lookup_insert_eq. }
    cbn [points id]. rewrite lookup_insert_eq. cbn [payload].
    rewrite User_of_dict_User_dict by done. reflexivity.
  - done.
Qed.

Lemma create_then_get_with_age_witness :
  ∃ r' s2,
    get_user demo_env "00000000-0000-4000-8000-0" ada_state = (Ok r', s2)
    ∧ r'.(user) = ada.
Proof.
  destruct (create_then_get_with_age demo_env ada started_state ada_state
              (mkUserResponse "00000000-0000-4000-8000-0" ada None))
    as (r' & s2 & Hget & _ & Hu & _).
  - discriminate.
  - vm_compute. reflexivity.
  - reflexivity.
  - exists r', s2. exact (conj Hget Hu).
Defined.
